(** * Dutch word analyzer: a shallow embedding of [dutch_word_analyzer.py]

    The development follows the source file top to bottom: the Python
    built-ins the analyzer relies on ([str.lower], [str.strip],
    [str.endswith], truthiness, [dict.get]), the irregular verb table, the
    lookup [_get_wiktionary_info] run against an explicit model of the HTTP
    session, the three rule functions, and the batch loop of
    [process_words_from_file] with the exceptions it can raise.

    Strings are [string]; a character stands for the code point of the same
    number (the code points below 256).  A Python [dict] with string keys is
    a [gmap string _]; a value that may be [None] is an [option]. *)

From stdpp Require Import gmap strings list fin_maps.
From Stdlib Require Import Ascii NArith.

Open Scope string_scope.

(** ** Python built-ins *)

Module Py.

(** [c.isspace()] on the code points below 256. *)
Definition isspace (c : ascii) : bool :=
  let n := N_of_ascii c in
  ((9 <=? n) && (n <=? 13) || (28 <=? n) && (n <=? 32)
   || (n =? 133) || (n =? 160))%N.

(** [c.lower()] on the code points below 256: A-Z and the accented
    capitals of Latin-1 (the multiplication sign 215 is not a letter). *)
Definition lower_char (c : ascii) : ascii :=
  let n := N_of_ascii c in
  if ((65 <=? n) && (n <=? 90)
      || (192 <=? n) && (n <=? 222) && negb (n =? 215))%N
  then ascii_of_N (n + 32) else c.

(** [s.lower()] *)
Fixpoint lower (s : string) : string :=
  match s with
  | EmptyString => EmptyString
  | String c s' => String (lower_char c) (lower s')
  end.

(** [s.lstrip()], [s.rstrip()], [s.strip()] *)
Fixpoint lstrip (s : string) : string :=
  match s with
  | EmptyString => EmptyString
  | String c s' => if isspace c then lstrip s' else s
  end.

Fixpoint rstrip (s : string) : string :=
  match s with
  | EmptyString => EmptyString
  | String c s' =>
      match rstrip s' with
      | EmptyString => if isspace c then EmptyString else String c EmptyString
      | r => String c r
      end
  end.

Definition strip (s : string) : string := lstrip (rstrip s).

(** [s.endswith(suffix)] *)
Fixpoint endswith (s suffix : string) : bool :=
  String.eqb s suffix
  || match s with
     | EmptyString => false
     | String _ s' => endswith s' suffix
     end.

(** [s[:-n]]: the string without its last [n] characters. *)
Definition drop_last (n : nat) (s : string) : string :=
  String.substring 0 (String.length s - n) s.

(** [s[-1]], defined when [s] is not empty. *)
Definition last_char (s : string) : option ascii :=
  String.get (String.length s - 1) s.

(** [c in l] for a one-character string [c] and a list [l] of
    one-character strings. *)
Definition char_in (c : ascii) (l : list ascii) : bool :=
  existsb (Ascii.eqb c) l.

(** Truthiness: [bool(s)] of a string, and of a value that is a string or
    [None]. *)
Definition truthy_str (s : string) : bool :=
  negb (String.eqb s "").

Definition truthy (v : option string) : bool :=
  match v with
  | Some s => truthy_str s
  | None => false
  end.

(** [d.get(key)] where the values of [d] may themselves be [None]:
    an absent key and a key bound to [None] both give [None]. *)
Definition get (d : gmap string (option string)) (key : string)
  : option string :=
  match d !! key with
  | Some v => v
  | None => None
  end.

(** [any(d.values())] *)
Definition any_values (d : gmap string (option string)) : bool :=
  existsb truthy (map_to_list d).*2.

Definition any_str_values (d : gmap string string) : bool :=
  existsb truthy_str (map_to_list d).*2.

(** [bool(d)] of a dict: it has a key. *)
Definition truthy_dict {V} (d : gmap string V) : bool :=
  negb (bool_decide (d = ∅)).

(** [s.split()[0]] of a string that has a word: the first maximal run of
    characters that are not white space. *)
Fixpoint take_word (s : string) : string :=
  match s with
  | EmptyString => EmptyString
  | String c s' => if isspace c then EmptyString else String c (take_word s')
  end.

(** [None] stands for the [IndexError] of [[][0]], when [s] has no word. *)
Definition first_word (s : string) : option string :=
  match lstrip s with
  | EmptyString => None
  | t => Some (take_word t)
  end.

(** [re.sub(r'<[^>]+>', '', s)].  The scan keeps in [tag] the characters
    read since an opening [<] ([None] outside a candidate tag).  A [>]
    closes the candidate when at least one character was read, and the
    whole tag is dropped; [<>] does not match and is kept.  A candidate
    that reaches the end of the string was no tag and is kept. *)
Fixpoint sub_tags_go (tag : option string) (s : string) : string :=
  match s, tag with
  | EmptyString, None => EmptyString
  | EmptyString, Some t => String "<" (String.rev t)
  | String c s', None =>
      if Ascii.eqb c "<" then sub_tags_go (Some EmptyString) s'
      else String c (sub_tags_go None s')
  | String c s', Some t =>
      if Ascii.eqb c ">" then
        match t with
        | EmptyString => String "<" (String ">" (sub_tags_go None s'))
        | _ => sub_tags_go None s'
        end
      else sub_tags_go (Some (String c t)) s'
  end.

Definition sub_tags (s : string) : string := sub_tags_go None s.

End Py.

(** ** Exceptions

    The two exceptions that the code of the loop over the words, and of the
    display, can raise on words and answers as they are modelled here, and
    the result of a computation that may raise.  The exceptions of opening
    and decoding the file are not among them. *)

Inductive exn : Type :=
  | AttributeError   (* 'NoneType' object has no attribute 'lower' *)
  | KeyError.

Inductive result (A : Type) : Type :=
  | Ok (a : A)
  | Raise (e : exn).

Arguments Ok {A} a.
Arguments Raise {A} e.

Definition bind {A B} (m : result A) (f : A → result B) : result B :=
  match m with
  | Ok a => f a
  | Raise e => Raise e
  end.

Notation "'let!' x ':=' m 'in' k" := (bind m (fun x => k))
  (at level 10, x name, m at level 100, k at level 200).

(** ** DutchWordAnalyzer *)

(** [IRREGULAR_VERBS]: infinitive to (past tense, past participle). *)
Definition IRREGULAR_VERBS : gmap string (string * string) :=
  list_to_map [
    ("lezen", ("las", "gelezen"));
    ("schrijven", ("schreef", "geschreven"));
    ("begrijpen", ("begreep", "begrepen"));
    ("komen", ("kwam", "gekomen"));
    ("gaan", ("ging", "gegaan"));
    ("zien", ("zag", "gezien"));
    ("doen", ("deed", "gedaan"));
    ("hebben", ("had", "gehad"));
    ("zijn", ("was", "geweest"));
    ("worden", ("werd", "geworden"));
    ("nemen", ("nam", "genomen"));
    ("geven", ("gaf", "gegeven"));
    ("blijven", ("bleef", "gebleven"));
    ("krijgen", ("kreeg", "gekregen"));
    ("zeggen", ("zei", "gezegd"));
    ("weten", ("wist", "geweten"));
    ("eten", ("at", "gegeten"));
    ("drinken", ("dronk", "gedronken"));
    ("lopen", ("liep", "gelopen"));
    ("staan", ("stond", "gestaan"));
    ("zitten", ("zat", "gezeten"));
    ("liggen", ("lag", "gelegen"));
    ("vinden", ("vond", "gevonden"));
    ("denken", ("dacht", "gedacht"));
    ("brengen", ("bracht", "gebracht"));
    ("kopen", ("kocht", "gekocht"));
    ("verkopen", ("verkocht", "verkocht"));
    ("helpen", ("hielp", "geholpen"));
    ("spreken", ("sprak", "gesproken"))
  ].

(** [word in self.IRREGULAR_VERBS] *)
Definition is_irregular_verb (word : string) : bool :=
  bool_decide (is_Some (IRREGULAR_VERBS !! word)).

(** *** The rule functions *)

(** [_get_verb_forms]: the stem is the word without its final [en]; the
    last character of the stem, lower-cased, chooses between [te]/[t] and
    [de]/[d]. *)
Definition _get_verb_forms (word : string) : gmap string string :=
  let forms : gmap string string := ∅ in
  if Py.endswith word "en" then
    let stem := Py.drop_last 2 word in
    if (0 <? String.length stem)%nat then
      let final_cons :=
        match Py.last_char stem with
        | Some c => Some (Py.lower_char c)
        | None => None
        end in
      let voiceless :=
        match final_cons with
        | Some c => Py.char_in c ["p"; "t"; "k"; "f"; "s"; "x"; "c"]%char
        | None => false
        end in
      let forms :=
        if voiceless then <["past_tense" := stem +:+ "te"]> forms
        else <["past_tense" := stem +:+ "de"]> forms in
      let forms :=
        if voiceless then <["past_participle" := "ge" +:+ stem +:+ "t"]> forms
        else <["past_participle" := "ge" +:+ stem +:+ "d"]> forms in
      forms
    else forms
  else forms.

(** [_get_noun_forms] *)
Definition _get_noun_forms (word : string) : gmap string string :=
  let forms : gmap string string := ∅ in
  if Py.endswith word "el" || Py.endswith word "er" || Py.endswith word "en"
  then <["plural" := word +:+ "s"]> forms
  else if Py.endswith word "heid" then <["plural" := word +:+ "en"]> forms
  else if Py.endswith word "ing" then <["plural" := word +:+ "en"]> forms
  else <["plural" := word +:+ "en"]> forms.

(** [_get_adjective_forms] *)
Definition _get_adjective_forms (word : string) : gmap string string :=
  let forms : gmap string string := ∅ in
  if (2 <? String.length word)%nat then
    let forms := <["comparative" := word +:+ "er"]> forms in
    let forms :=
      if Py.endswith word "r" then <["superlative" := word +:+ "st"]> forms
      else <["superlative" := word +:+ "st"]> forms in
    forms
  else forms.

(** *** The HTTP session

    [session.get(url)] either raises or gives a response with a status code
    and a body.  The body of the two REST endpoints is what the code reads of
    the parsed JSON: the list under the key [nl] when there is one, with the
    optional keys of each entry.  [NotJson] is a body on which
    [response.json()] raises.  The HTML of the page is read only through
    [re.search(pattern, html_content, re.IGNORECASE | re.DOTALL)], so a page
    is the function from a pattern to [group(1)] of its first match. *)

Inductive json_body (A : Type) : Type :=
  | NotJson
  | Json (nl : option (list A)).

Arguments NotJson {A}.
Arguments Json {A} nl.

Inductive response (A : Type) : Type :=
  | ConnectionError
  | Response (status_code : N) (body : A).

Arguments ConnectionError {A}.
Arguments Response {A} status_code body.

Record definition_json : Type := {
  definition : option string
}.

Record entry_json : Type := {
  partOfSpeech : option string;
  definitions : option (list definition_json)
}.

Record features_json : Type := {
  tense : option string;
  number : option string;
  aspect : option string;
  degree : option string
}.

Record inflection_json : Type := {
  features : option features_json;
  infl_word : option string
}.

Record inflection_entry_json : Type := {
  inflectionOf : option (list inflection_json)
}.

Definition html : Type := string → option string.

Record Session : Type := {
  get_definition : string → response (json_body entry_json);
  get_inflections : string → response (json_body inflection_entry_json);
  get_page : string → response html
}.

(** *** Records

    [WiktionaryData] is the dict built by [_get_wiktionary_info] (keys
    [meanings], [forms], [word_type]); [WordInfo] is the dict built by
    [get_word_info] (the same keys and [word]). *)

Record WiktionaryData : Type := {
  wk_meanings : list string;
  wk_forms : gmap string (option string);
  wk_word_type : option string
}.

Record WordInfo : Type := {
  word : string;
  meanings : list string;
  forms : gmap string (option string);
  word_type : option string
}.

Definition wk_set_forms (f : gmap string (option string)) (r : WiktionaryData)
  : WiktionaryData :=
  {| wk_meanings := wk_meanings r; wk_forms := f;
     wk_word_type := wk_word_type r |}.

Definition wk_set_word_type (t : option string) (r : WiktionaryData)
  : WiktionaryData :=
  {| wk_meanings := wk_meanings r; wk_forms := wk_forms r;
     wk_word_type := t |}.

Definition wk_append_meaning (m : string) (r : WiktionaryData)
  : WiktionaryData :=
  {| wk_meanings := wk_meanings r ++ [m]; wk_forms := wk_forms r;
     wk_word_type := wk_word_type r |}.

Definition set_forms (f : gmap string (option string)) (r : WordInfo)
  : WordInfo :=
  {| word := word r; meanings := meanings r; forms := f;
     word_type := word_type r |}.

Definition set_word_type (t : option string) (r : WordInfo) : WordInfo :=
  {| word := word r; meanings := meanings r; forms := forms r;
     word_type := t |}.

Definition set_meanings (m : list string) (r : WordInfo) : WordInfo :=
  {| word := word r; meanings := m; forms := forms r;
     word_type := word_type r |}.

(** *** _get_wiktionary_info *)

(** The body of [for definition in entry['definitions']]. *)
Definition add_definition (result : WiktionaryData) (d : definition_json)
  : WiktionaryData :=
  match definition d with
  | Some meaning =>
      let meaning := Py.sub_tags meaning in
      let meaning := Py.strip meaning in
      if Py.truthy_str meaning then wk_append_meaning meaning result
      else result
  | None => result
  end.

(** The body of [for entry in nl_data]. *)
Definition add_entry (result : WiktionaryData) (entry : entry_json)
  : WiktionaryData :=
  let result :=
    match partOfSpeech entry with
    | Some pos =>
        if negb (Py.truthy (wk_word_type result))
        then wk_set_word_type (Some pos) result else result
    | None => result
    end in
  match definitions entry with
  | Some ds => fold_left add_definition ds result
  | None => result
  end.

(** [features[key] == value] guarded by [key in features]. *)
Definition feature_is (f : option string) (value : string) : bool :=
  match f with
  | Some v => String.eqb v value
  | None => false
  end.

(** The body of [for infl in entry['inflectionOf']]. *)
Definition add_inflection (forms : gmap string (option string))
  (infl : inflection_json) : gmap string (option string) :=
  match features infl with
  | Some features =>
      let infl_word := default "" (infl_word infl) in
      let forms :=
        if feature_is (tense features) "past"
           && feature_is (number features) "singular"
        then <["past_tense" := Some infl_word]> forms else forms in
      let forms :=
        if feature_is (aspect features) "perfect"
        then <["past_participle" := Some infl_word]> forms else forms in
      let forms :=
        if feature_is (number features) "plural"
        then <["plural" := Some infl_word]> forms else forms in
      let forms :=
        if feature_is (degree features) "comparative"
        then <["comparative" := Some infl_word]> forms else forms in
      let forms :=
        if feature_is (degree features) "superlative"
        then <["superlative" := Some infl_word]> forms else forms in
      forms
  | None => forms
  end.

Definition add_inflection_entry (forms : gmap string (option string))
  (entry : inflection_entry_json) : gmap string (option string) :=
  match inflectionOf entry with
  | Some infls => fold_left add_inflection infls forms
  | None => forms
  end.

(** The inflections block; every exception in it is swallowed. *)
Definition add_inflections (r : response (json_body inflection_entry_json))
  (forms : gmap string (option string)) : gmap string (option string) :=
  match r with
  | Response status_code (Json (Some nl_infl)) =>
      if (status_code =? 200)%N
      then fold_left add_inflection_entry nl_infl forms
      else forms
  | _ => forms
  end.

(** The check against [IRREGULAR_VERBS]. *)
Definition add_irregular (word : string) (result : WiktionaryData)
  : WiktionaryData :=
  match IRREGULAR_VERBS !! word with
  | Some (past_tense, past_participle) =>
      let result :=
        if negb (Py.truthy (wk_word_type result))
        then wk_set_word_type (Some "verb") result else result in
      wk_set_forms
        (<["past_participle" := Some past_participle]>
           (<["past_tense" := Some past_tense]> (wk_forms result)))
        result
  | None => result
  end.

(** One turn of [for pattern in patterns] for the slot [key].  The turn
    ends normally ([Next]), leaves the loop ([Break]) or raises
    ([Except], the [IndexError] of [split()[0]]). *)
Inductive flow : Type :=
  | Next (forms : gmap string (option string))
  | Break (forms : gmap string (option string))
  | Except (forms : gmap string (option string)).

Definition scrape_pattern (html_content : html) (key : string)
  (forms : gmap string (option string)) (pattern : string) : flow :=
  match html_content pattern with
  | Some group1 =>
      if negb (Py.truthy (Py.get forms key)) then
        let form := Py.strip group1 in
        let form := Py.sub_tags form in
        if Py.truthy_str form then
          match Py.first_word form with
          | Some form =>
              if Py.truthy_str form && (1 <? String.length form)%nat
              then Break (<[key := Some form]> forms)
              else Next forms
          | None => Except forms
          end
        else Next forms
      else Next forms
  | None => Next forms
  end.

(** The loop over the patterns: the forms it leaves, and whether it
    raised. *)
Fixpoint scrape (html_content : html) (key : string)
  (forms : gmap string (option string)) (patterns : list string)
  : gmap string (option string) * bool :=
  match patterns with
  | [] => (forms, false)
  | pattern :: patterns =>
      match scrape_pattern html_content key forms pattern with
      | Next forms => scrape html_content key forms patterns
      | Break forms => (forms, false)
      | Except forms => (forms, true)
      end
  end.

Definition patterns : list string := [
  "verleden tijd[^<]*?<td[^>]*>([^<]+)</td>";
  "imperfectum[^<]*?<td[^>]*>([^<]+)</td>";
  "<th[^>]*>verleden tijd</th>[^<]*?<td[^>]*>([^<]+)</td>"
].

Definition part_patterns : list string := [
  "voltooid deelwoord[^<]*?<td[^>]*>([^<]+)</td>";
  "perfectum[^<]*?<td[^>]*>([^<]+)</td>";
  "<th[^>]*>voltooid deelwoord</th>[^<]*?<td[^>]*>([^<]+)</td>"
].

(** The page block; an exception ends it and is swallowed. *)
Definition add_page (r : response html) (forms : gmap string (option string))
  : gmap string (option string) :=
  match r with
  | Response status_code html_content =>
      if (status_code =? 200)%N then
        let '(forms, raised) :=
          scrape html_content "past_tense" forms patterns in
        if raised then forms
        else fst (scrape html_content "past_participle" forms part_patterns)
      else forms
  | ConnectionError => forms
  end.

(** The definitions block.  [None] is an exception that reaches the outer
    handler, which makes the function return [None]. *)
Definition add_definitions (r : response (json_body entry_json))
  (result : WiktionaryData) : option WiktionaryData :=
  match r with
  | ConnectionError => None
  | Response status_code body =>
      if (status_code =? 200)%N then
        match body with
        | NotJson => None
        | Json (Some nl_data) => Some (fold_left add_entry nl_data result)
        | Json None => Some result
        end
      else Some result
  end.

(** The dict [result] as it is created. *)
Definition empty_result : WiktionaryData :=
  {| wk_meanings := []; wk_forms := ∅; wk_word_type := None |}.

Definition _get_wiktionary_info (session : Session) (word : string)
  : option WiktionaryData :=
  let result := empty_result in
  match add_definitions (get_definition session word) result with
  | Some result =>
      let result :=
        wk_set_forms
          (add_inflections (get_inflections session word) (wk_forms result))
          result in
      let result := add_irregular word result in
      let result :=
        wk_set_forms (add_page (get_page session word) (wk_forms result))
          result in
      if negb (bool_decide (wk_meanings result = []))
         || Py.any_values (wk_forms result)
      then Some result else None
  | None => None
  end.

(** [_get_woordenboek_info] is a placeholder in the source. *)
Definition _get_woordenboek_info (word : string) : option WiktionaryData :=
  None.

(** *** get_word_info

    [None] is the empty dict returned for a word that is empty once
    stripped. *)

Definition merge_woordenboek (woordenboek_data : WiktionaryData)
  (result : WordInfo) : WordInfo :=
  let result :=
    if bool_decide (meanings result = [])
    then set_meanings (wk_meanings woordenboek_data) result else result in
  let result :=
    if negb (Py.truthy (word_type result))
    then set_word_type (wk_word_type woordenboek_data) result else result in
  set_forms
    (map_imap
       (λ key v,
          if negb (Py.truthy v)
             && Py.truthy (Py.get (wk_forms woordenboek_data) key)
          then Some (Py.get (wk_forms woordenboek_data) key)
          else Some v)
       (forms result))
    result.

Definition get_word_info (session : Session) (word : string)
  : option WordInfo :=
  let word := Py.lower (Py.strip word) in
  if negb (Py.truthy_str word) then None
  else
    let result :=
      {| word := word;
         meanings := [];
         forms :=
           <["superlative" := None]> (<["comparative" := None]>
           (<["plural" := None]> (<["present_tense" := None]>
           (<["past_participle" := None]> (<["past_tense" := None]> ∅)))));
         word_type := None |} in
    let result :=
      match _get_wiktionary_info session word with
      | Some wiktionary_data =>
          (* result.update(wiktionary_data) *)
          {| word := word;
             meanings := wk_meanings wiktionary_data;
             forms := wk_forms wiktionary_data;
             word_type := wk_word_type wiktionary_data |}
      | None => result
      end in
    let result :=
      match _get_woordenboek_info word with
      | Some woordenboek_data => merge_woordenboek woordenboek_data result
      | None => result
      end in
    Some result.

(** *** process_words_from_file *)

(** [word_info.get('word_type', '').lower()].  The key is always there, so
    the default is never used; on the value [None] the call of [lower]
    raises. *)
Definition word_type_lower (word_info : WordInfo) : result string :=
  match word_type word_info with
  | Some t => Ok (Py.lower t)
  | None => Raise AttributeError
  end.

(** [for key, value in src.items(): if not forms.get(key): forms[key] = value] *)
Definition fill_unset (src : gmap string string)
  (forms : gmap string (option string)) : gmap string (option string) :=
  map_fold
    (λ key value forms,
       if negb (Py.truthy (Py.get forms key))
       then <[key := Some value]> forms else forms)
    forms src.

(** The three inference steps act on the record and on the local variable
    [word_type]. *)
Definition infer_verb (word : string) (is_irregular : bool)
  (st : WordInfo * string) : WordInfo * string :=
  let '(word_info, word_type) := st in
  if negb is_irregular then
    let verb_forms := _get_verb_forms word in
    if Py.truthy_dict verb_forms && Py.any_str_values verb_forms then
      let '(word_info, word_type) :=
        if negb (Py.truthy_str word_type)
        then (set_word_type (Some "verb") word_info, "verb")
        else (word_info, word_type) in
      if String.eqb word_type "verb"
      then (set_forms (fill_unset verb_forms (forms word_info)) word_info,
            word_type)
      else (word_info, word_type)
    else (word_info, word_type)
  else if is_irregular && negb (Py.truthy_str word_type)
  then (set_word_type (Some "verb") word_info, "verb")
  else (word_info, word_type).

Definition infer_noun (word : string) (st : WordInfo * string)
  : WordInfo * string :=
  let '(word_info, word_type) := st in
  let noun_forms := _get_noun_forms word in
  let '(word_info, word_type) :=
    if Py.truthy_dict noun_forms && negb (Py.truthy_str word_type)
    then (set_word_type (Some "noun") word_info, "noun")
    else (word_info, word_type) in
  if String.eqb word_type "noun" then
    if Py.truthy_dict noun_forms
       && negb (Py.truthy (Py.get (forms word_info) "plural"))
    then (set_forms (<["plural" := noun_forms !! "plural"]> (forms word_info))
            word_info, word_type)
    else (word_info, word_type)
  else (word_info, word_type).

Definition infer_adjective (word : string) (st : WordInfo * string)
  : WordInfo * string :=
  let '(word_info, word_type) := st in
  let adj_forms := _get_adjective_forms word in
  let '(word_info, word_type) :=
    if Py.truthy_dict adj_forms && negb (Py.truthy_str word_type)
    then (set_word_type (Some "adjective") word_info, "adjective")
    else (word_info, word_type) in
  if String.eqb word_type "adjective"
  then (set_forms (fill_unset adj_forms (forms word_info)) word_info,
        word_type)
  else (word_info, word_type).

Definition infer (word : string) (is_irregular : bool)
  (st : WordInfo * string) : WordInfo * string :=
  infer_adjective word (infer_noun word (infer_verb word is_irregular st)).

(** The clean-up of the forms that do not fit the word type. *)
Definition prune (word_info : WordInfo) : result WordInfo :=
  let! word_type := word_type_lower word_info in
  let forms := forms word_info in
  Ok (if String.eqb word_type "verb" then
        set_forms
          (<["plural" := None]> (<["superlative" := None]>
           (<["comparative" := None]> forms)))
          word_info
      else if String.eqb word_type "adjective" then
        set_forms
          (<["plural" := None]> (<["present_tense" := None]>
           (<["past_participle" := None]> (<["past_tense" := None]> forms))))
          word_info
      else if String.eqb word_type "noun" then
        set_forms
          (<["superlative" := None]> (<["comparative" := None]>
           (<["present_tense" := None]> (<["past_participle" := None]>
           (<["past_tense" := None]> forms)))))
          word_info
      else word_info).

(** The body of the loop for one word, up to [results.append].  The empty
    dict of [get_word_info] has no key [forms]: every path through the body
    reads [word_info['forms']], which raises [KeyError]. *)
Definition process_word (session : Session) (word : string)
  : result WordInfo :=
  match get_word_info session word with
  | Some word_info =>
      let! word_type := word_type_lower word_info in
      let is_irregular := is_irregular_verb word in
      let word_info :=
        if negb (Py.truthy_str word_type)
           || negb (Py.any_values (forms word_info))
        then fst (infer word is_irregular (word_info, word_type))
        else word_info in
      prune word_info
  | None => Raise KeyError
  end.

(** The loop [for i, word in enumerate(words, 1)]; the session may answer
    differently at each turn.  An exception leaves the loop and the
    function: the results gathered so far are lost. *)
Fixpoint process_loop (session : nat → Session) (i : nat)
  (words : list string) (results : list WordInfo)
  : result (list WordInfo) :=
  match words with
  | [] => Ok results
  | word :: words =>
      let! word_info := process_word (session i) word in
      process_loop session (S i) words (results ++ [word_info])
  end.

(** [file] is the list of the lines of the file, [None] when the file does
    not exist.  A file that exists but cannot be opened or decoded is not
    in the model: [open] or the reading of the lines raises there, before
    the loop. *)
Definition process_words_from_file (session : nat → Session)
  (file : option (list string)) : result (list WordInfo) :=
  match file with
  | None => Ok []
  | Some lines =>
      let words :=
        map Py.strip
          (List.filter (λ line, Py.truthy_str (Py.strip line)) lines) in
      process_loop session 1 words []
  end.

(** *** display_results

    What [display_results] prints, one value for each call of [print].
    The lines with a fixed text are constructors without arguments; a line
    built from the record carries the values that are formatted into it
    ([Heading i word] is the line of the number [i] and the word in upper
    case). *)

Inductive printed : Type :=
  | BannerTop
  | BannerTitle
  | BannerBottom
  | Heading (i : nat) (word : string)
  | Rule
  | TypeLine (word_type : string)
  | MeaningsHeader
  | MeaningLine (meaning : string)
  | MeaningsNotFound
  | FormsHeader
  | FormLine (label form : string)
  | IrregularNote
  | FormsNotFound
  | BlankLine.

(** [{k: v for k, v in forms.items() if v is not None}] *)
Definition valid_forms (forms : gmap string (option string))
  : gmap string string :=
  omap id forms.

(** [if valid_forms.get(key): print(f"  {label}: {valid_forms[key]}")] *)
Definition form_line (valid_forms : gmap string string) (key label : string)
  : list printed :=
  match valid_forms !! key with
  | Some form => if Py.truthy_str form then [FormLine label form] else []
  | None => []
  end.

(** The body of the loop of [display_results]: what it prints, and the
    exception it raises, if any ([None.lower()] in the test for the note,
    which is evaluated only when there are valid forms). *)
Definition display_word (i : nat) (word_info : WordInfo)
  : list printed * option exn :=
  let out := [Heading i (word word_info); Rule] in
  let out :=
    match word_type word_info with
    | Some t => if Py.truthy_str t then (out ++ [TypeLine t])%list else out
    | None => out
    end in
  let meanings := meanings word_info in
  let out :=
    if negb (bool_decide (meanings = []))
    then (out ++ MeaningsHeader :: map MeaningLine (take 3 meanings))%list
    else (out ++ [MeaningsNotFound])%list in
  let valid_forms := valid_forms (forms word_info) in
  if Py.truthy_dict valid_forms then
    let out :=
      (out ++ [FormsHeader]
           ++ form_line valid_forms "past_tense" "Past Tense"
           ++ form_line valid_forms "past_participle" "Past Participle"
           ++ form_line valid_forms "present_tense" "Present Tense"
           ++ form_line valid_forms "plural" "Plural"
           ++ form_line valid_forms "comparative" "Comparative"
           ++ form_line valid_forms "superlative" "Superlative")%list in
    match word_type_lower word_info with
    | Ok word_type =>
        let out :=
          if String.eqb word_type "verb"
             && negb (Py.truthy_str (default "" (valid_forms !! "past_tense")))
          then (out ++ [IrregularNote])%list else out in
        ((out ++ [BlankLine])%list, None)
    | Raise e => (out, Some e)
    end
  else ((out ++ [FormsNotFound; BlankLine])%list, None).

(** The loop [for i, word_info in enumerate(results, 1)]; an exception
    ends it. *)
Fixpoint display_loop (i : nat) (results : list WordInfo)
  : list printed * option exn :=
  match results with
  | [] => ([], None)
  | word_info :: results =>
      match display_word i word_info with
      | (out, Some e) => (out, Some e)
      | (out, None) =>
          let '(out', raised) := display_loop (S i) results in
          ((out ++ out')%list, raised)
      end
  end.

Definition display_results (results : list WordInfo)
  : list printed * option exn :=
  let '(out, raised) := display_loop 1 results in
  (BannerTop :: BannerTitle :: BannerBottom :: out, raised).

(** *** main

    [argv] is [sys.argv]; [files] gives the lines of the file at a path,
    [None] when there is none.  The outcome of [main]: the usage message
    and [sys.exit(1)]; the message that no words were processed; the
    display, followed or not by the call of [save_results] with the
    output file and the results; or an exception that nothing catches,
    after the lines displayed so far. *)

Inductive outcome : Type :=
  | Usage
  | NoWords
  | Displayed (out : list printed) (saved : option (string * list WordInfo))
  | Uncaught (out : list printed) (e : exn).

Definition main (argv : list string) (files : string → option (list string))
  (session : nat → Session) : outcome :=
  match argv with
  | _ :: words_file :: rest =>
      let output_file := head rest in
      match process_words_from_file session (files words_file) with
      | Ok results =>
          if negb (bool_decide (results = [])) then
            match display_results results with
            | (out, None) =>
                match output_file with
                | Some output_file =>
                    if Py.truthy_str output_file
                    then Displayed out (Some (output_file, results))
                    else Displayed out None
                | None => Displayed out None
                end
            | (out, Some e) => Uncaught out e
            end
          else NoWords
      | Raise e => Uncaught [] e
      end
  | _ => Usage
  end.

(** The meaning, and the label and form, that a printed line shows. *)
Definition printed_meaning (line : printed) : option string :=
  match line with
  | MeaningLine meaning => Some meaning
  | _ => None
  end.

Definition printed_form (line : printed) : option (string * string) :=
  match line with
  | FormLine label form => Some (label, form)
  | _ => None
  end.

(** The slots in the order of the display, with their labels. *)
Definition form_labels : list (string * string) :=
  [("past_tense", "Past Tense"); ("past_participle", "Past Participle");
   ("present_tense", "Present Tense"); ("plural", "Plural");
   ("comparative", "Comparative"); ("superlative", "Superlative")].

(** ** Sessions and words used in the statements *)

(** The definitions request raises: the connection failed, or the body of
    a 200 answer is not JSON. *)
Definition definitions_fail (r : response (json_body entry_json)) : bool :=
  match r with
  | ConnectionError => true
  | Response status_code NotJson => (status_code =? 200)%N
  | Response _ (Json _) => false
  end.

(** The part of speech that the definitions request supplies for [word]:
    some Dutch entry of a 200 answer carries it. *)
Definition supplies (session : Session) (word t : string) : Prop :=
  ∃ nl_data entry,
    get_definition session word = Response 200 (Json (Some nl_data))
    ∧ entry ∈ nl_data
    ∧ partOfSpeech entry = Some t.

Definition no_match : html := λ _, None.

(** No network: every request raises. *)
Definition offline : Session :=
  {| get_definition := λ _, ConnectionError;
     get_inflections := λ _, ConnectionError;
     get_page := λ _, ConnectionError |}.

(** Every request is answered 404. *)
Definition not_found : Session :=
  {| get_definition := λ _, Response 404 (Json None);
     get_inflections := λ _, Response 404 (Json None);
     get_page := λ _, Response 404 no_match |}.

(** The definitions request is answered 200 with one Dutch entry, which
    has the part of speech [pos] and one definition; the other requests
    are answered 404. *)
Definition one_entry (pos : option string) (meaning : string) : Session :=
  {| get_definition := λ _,
       Response 200
         (Json (Some [ {| partOfSpeech := pos;
                          definitions :=
                            Some [ {| definition := Some meaning |} ] |} ]));
     get_inflections := λ _, Response 404 (Json None);
     get_page := λ _, Response 404 no_match |}.

(** A line of the file: the text and its end of line. *)
Definition line (text : string) : string := text +:+ String "010" "".

(** The six slots of the forms. *)
Definition slots : list string :=
  ["past_tense"; "past_participle"; "present_tense"; "plural";
   "comparative"; "superlative"].

(** ** Notions used in the statements about the lookup and the forms *)

(** A meaning as the lookup keeps it: stripped and not empty. *)
Definition clean (meaning : string) : Prop :=
  meaning ≠ "" ∧ Py.strip meaning = meaning.

(** The slots that the lookup and the rules can fill: all but
    [present_tense]. *)
Definition lookup_slots : list string :=
  ["past_tense"; "past_participle"; "plural"; "comparative"; "superlative"].

(** The keys of [forms] are among [keys]. *)
Definition keys_in (keys : list string) (forms : gmap string (option string))
  : Prop :=
  ∀ key, is_Some (forms !! key) → key ∈ keys.

(** [forms'] is [forms] with gaps filled: a key either has what it had in
    [forms], or it is one of [keys], had no form in [forms] (it was absent,
    [None] or the empty string) and has a string in [forms']. *)
Definition fills_gaps (keys : list string)
  (forms forms' : gmap string (option string)) : Prop :=
  ∀ key,
    forms' !! key = forms !! key
    ∨ (key ∈ keys
       ∧ Py.truthy (Py.get forms key) = false
       ∧ ∃ v, forms' !! key = Some (Some v)).

(** The definitions answer says [Verb] and gives one meaning. *)
Definition verb_session : Session := one_entry (Some "Verb") "to work".

(** ** Examples *)

Example verb_werken :
  _get_verb_forms "werken"
  = <["past_participle" := "gewerkt"]> (<["past_tense" := "werkte"]> ∅).
Proof. vm_compute. reflexivity. Qed.

Example verb_noemen :
  _get_verb_forms "noemen"
  = <["past_participle" := "genoemd"]> (<["past_tense" := "noemde"]> ∅).
Proof. vm_compute. reflexivity. Qed.

Example noun_tafel : _get_noun_forms "tafel" = {["plural" := "tafels"]}.
Proof. vm_compute. reflexivity. Qed.

Example sub_tags_ex :
  Py.sub_tags "a <b>bold</b> <> x < y" = "a bold <> x < y".
Proof. vm_compute. reflexivity. Qed.

Example strip_ex : Py.strip "  Werken
" = "Werken".
Proof. vm_compute. reflexivity. Qed.

(** * Properties *)

(** ** The built-ins *)

Section Builtins.

Implicit Types s t p suffix : string.

Lemma endswith_refl s : Py.endswith s s = true.
Proof. destruct s; cbn [Py.endswith]; by rewrite String.eqb_refl. Qed.

Lemma endswith_app p suffix : Py.endswith (p +:+ suffix) suffix = true.
Proof.
  induction p as [|c p IH]; [apply endswith_refl|].
  change (String c p +:+ suffix) with (String c (p +:+ suffix)).
  cbn [Py.endswith]. rewrite IH. apply orb_true_r.
Qed.

Lemma endswith_inv s suffix :
  Py.endswith s suffix = true → ∃ p, s = p +:+ suffix.
Proof.
  induction s as [|c s IH]; cbn [Py.endswith]; intros H.
  - rewrite orb_false_r in H. apply String.eqb_eq in H. by exists "".
  - apply orb_true_iff in H as [H|H].
    + apply String.eqb_eq in H. by exists "".
    + destruct (IH H) as [p ->]. by exists (String c p).
Qed.

Lemma length_app p s :
  String.length (p +:+ s) = String.length p + String.length s.
Proof. induction p as [|c p IH]; simpl; [done|]. by rewrite IH. Qed.

Lemma substring_0_0 s : String.substring 0 0 s = "".
Proof. by destruct s. Qed.

Lemma drop_last_app p suffix :
  Py.drop_last (String.length suffix) (p +:+ suffix) = p.
Proof.
  unfold Py.drop_last. rewrite length_app.
  replace (String.length p + String.length suffix - String.length suffix)
    with (String.length p) by lia.
  induction p as [|c p IH]; simpl.
  - apply substring_0_0.
  - by rewrite IH.
Qed.

Lemma truthy_str_true s : Py.truthy_str s = true ↔ s ≠ "".
Proof.
  unfold Py.truthy_str. rewrite negb_true_iff.
  destruct (String.eqb_spec s ""); naive_solver.
Qed.

Lemma truthy_str_false s : Py.truthy_str s = false ↔ s = "".
Proof.
  unfold Py.truthy_str. rewrite negb_false_iff. apply String.eqb_eq.
Qed.

Lemma length_pos s : (0 <? String.length s)%nat = Py.truthy_str s.
Proof. by destruct s. Qed.

Lemma lower_truthy s : Py.truthy_str (Py.lower s) = Py.truthy_str s.
Proof. by destruct s. Qed.

Lemma lstrip_idemp s : Py.lstrip (Py.lstrip s) = Py.lstrip s.
Proof.
  induction s as [|c s IH]; simpl; [done|].
  destruct (Py.isspace c) eqn:E; [done|]. simpl. by rewrite E.
Qed.

Lemma rstrip_idemp s : Py.rstrip (Py.rstrip s) = Py.rstrip s.
Proof.
  induction s as [|c s IH]; simpl; [done|].
  destruct (Py.rstrip s) as [|c' r] eqn:E.
  - destruct (Py.isspace c) eqn:Ec; simpl; [done|]. by rewrite Ec.
  - simpl in *. by rewrite IH.
Qed.

(** Stripping on the left keeps a string stripped on the right. *)
Lemma rstrip_lstrip s :
  Py.rstrip s = s → Py.rstrip (Py.lstrip s) = Py.lstrip s.
Proof.
  induction s as [|c s IH]; [done|].
  intros H. cbn [Py.lstrip]. destruct (Py.isspace c) eqn:Ec; [|done].
  apply IH. cbn [Py.rstrip] in H. rewrite Ec in H.
  destruct (Py.rstrip s) eqn:E; [discriminate|congruence].
Qed.

Lemma strip_idemp s : Py.strip (Py.strip s) = Py.strip s.
Proof.
  unfold Py.strip.
  rewrite (rstrip_lstrip (Py.rstrip s)) by apply rstrip_idemp.
  apply lstrip_idemp.
Qed.

End Builtins.

(** ** The verb rule *)

Section VerbRule.

Implicit Types word stem : string.

Lemma get_last c s : ∃ d, String.get (String.length s) (String c s) = Some d.
Proof.
  revert c. induction s as [|a s IH]; intros c; [by exists c|].
  destruct (IH a) as [d Hd]. by exists d.
Qed.

Lemma last_char_some stem : stem ≠ "" → ∃ c, Py.last_char stem = Some c.
Proof.
  destruct stem as [|c s]; [done|]. intros _. unfold Py.last_char.
  cbn [String.length]. rewrite Nat.sub_1_r. cbn [Nat.pred]. apply get_last.
Qed.

Lemma last_char_none : Py.last_char "" = None.
Proof. reflexivity. Qed.

(** C6, the claim as the code has it: the forms exist exactly for a word
    that is a non-empty stem followed by [en]; the test against the
    voiceless consonants is made on the LOWER-CASED last character of the
    stem, so a stem ending in a capital K, T, P, ... also takes [te]/[t]. *)
Theorem get_verb_forms_rule word :
  (∀ stem, stem ≠ "" → word = stem +:+ "en" →
     ∃ c, Py.last_char stem = Some c ∧
       _get_verb_forms word =
         if Py.char_in (Py.lower_char c)
              ["p"; "t"; "k"; "f"; "s"; "x"; "c"]%char
         then <["past_participle" := "ge" +:+ stem +:+ "t"]>
                (<["past_tense" := stem +:+ "te"]> ∅)
         else <["past_participle" := "ge" +:+ stem +:+ "d"]>
                (<["past_tense" := stem +:+ "de"]> ∅))
  ∧ ((∀ stem, word = stem +:+ "en" → stem = "") → _get_verb_forms word = ∅).
Proof.
  split.
  - intros stem Hne ->. destruct (last_char_some stem Hne) as [c Hc].
    exists c. split; [done|]. unfold _get_verb_forms.
    rewrite endswith_app.
    change 2 with (String.length "en"). rewrite drop_last_app, length_pos.
    apply truthy_str_true in Hne. rewrite Hne, Hc.
    by destruct (Py.char_in _ _).
  - intros Hstem. unfold _get_verb_forms.
    destruct (Py.endswith word "en") eqn:E; [|done].
    apply endswith_inv in E as [p ->]. by rewrite (Hstem p eq_refl).
Qed.

(** The rule of [get_verb_forms_rule] at the word [werken]. *)
Lemma get_verb_forms_rule_werken :
  _get_verb_forms "werken"
  = <["past_participle" := "gewerkt"]> (<["past_tense" := "werkte"]> ∅).
Proof.
  destruct (proj1 (get_verb_forms_rule "werken") "werk") as (c & Hc & ->);
    [done | reflexivity |].
  injection Hc as <-. reflexivity.
Defined.

(** C6 as the specification words it fails on a stem that ends in a
    capital: the last character of the stem of [werKen] is [K], which is
    not one of p, t, k, f, s, x, c, and yet the past tense takes [te]. *)
Lemma get_verb_forms_capital_stem :
  "werKen" = "werK" +:+ "en"
  ∧ Py.last_char "werK" = Some "K"%char
  ∧ Py.char_in "K" ["p"; "t"; "k"; "f"; "s"; "x"; "c"]%char = false
  ∧ _get_verb_forms "werKen" !! "past_tense" = Some "werKte"
  ∧ _get_verb_forms "werKen" !! "past_tense" ≠ Some ("werK" +:+ "de")
  ∧ _get_verb_forms "werKen" !! "past_participle" = Some "gewerKt"
  ∧ _get_verb_forms "werKen" !! "past_participle"
    ≠ Some ("ge" +:+ "werK" +:+ "d").
Proof. repeat split; (reflexivity || (vm_compute; discriminate)). Qed.

End VerbRule.

(** ** The clean-up of the forms *)

Section Pruning.

Implicit Types word_info r : WordInfo.
Implicit Types t : string.

(** Two finite maps built from inserts are equal when they agree at
    every key. *)
Local Ltac map_inserts :=
  apply map_eq; intros ?; rewrite ?lookup_insert;
  repeat case_decide; congruence.

Lemma prune_inv word_info r :
  prune word_info = Ok r →
  ∃ t, word_type word_info = Some t
    ∧ r = (if String.eqb (Py.lower t) "verb" then
             set_forms
               (<["plural" := None]> (<["superlative" := None]>
                (<["comparative" := None]> (forms word_info))))
               word_info
           else if String.eqb (Py.lower t) "adjective" then
             set_forms
               (<["plural" := None]> (<["present_tense" := None]>
                (<["past_participle" := None]>
                (<["past_tense" := None]> (forms word_info)))))
               word_info
           else if String.eqb (Py.lower t) "noun" then
             set_forms
               (<["superlative" := None]> (<["comparative" := None]>
                (<["present_tense" := None]> (<["past_participle" := None]>
                (<["past_tense" := None]> (forms word_info))))))
               word_info
           else word_info).
Proof.
  unfold prune, word_type_lower.
  destruct (word_type word_info) as [t|]; [|done].
  cbn [bind]. intros [= <-]. by exists t.
Qed.

Lemma prune_keeps word_info r :
  prune word_info = Ok r →
  word r = word word_info
  ∧ meanings r = meanings word_info
  ∧ word_type r = word_type word_info.
Proof.
  intros (t & Ht & ->)%prune_inv. by repeat case_match.
Qed.

(** C7: pruning twice is pruning once, for every record; on a record
    whose word type is [None] both raise the same exception. *)
Theorem prune_idempotent word_info :
  (let! r := prune word_info in prune r) = prune word_info.
Proof.
  destruct (prune word_info) as [r|e] eqn:E; [|done]. cbn [bind].
  destruct (prune_keeps _ _ E) as (_ & _ & Hty).
  apply prune_inv in E as (t & Ht & ->).
  unfold prune, word_type_lower. rewrite Hty, Ht. cbn [bind].
  do 3 (destruct (String.eqb (Py.lower t) _); [
    unfold set_forms; cbn [word meanings forms word_type];
    do 2 f_equal; map_inserts |]).
  done.
Qed.

Lemma prune_slots word_info r t :
  prune word_info = Ok r → word_type r = Some t →
  (Py.lower t = "verb" →
     forms r !! "plural" = Some None
     ∧ forms r !! "comparative" = Some None
     ∧ forms r !! "superlative" = Some None)
  ∧ (Py.lower t = "adjective" →
     forms r !! "past_tense" = Some None
     ∧ forms r !! "past_participle" = Some None
     ∧ forms r !! "present_tense" = Some None
     ∧ forms r !! "plural" = Some None)
  ∧ (Py.lower t = "noun" →
     forms r !! "past_tense" = Some None
     ∧ forms r !! "past_participle" = Some None
     ∧ forms r !! "present_tense" = Some None
     ∧ forms r !! "comparative" = Some None
     ∧ forms r !! "superlative" = Some None).
Proof.
  intros E Hr. destruct (prune_keeps _ _ E) as (_ & _ & Hty).
  apply prune_inv in E as (t' & Ht & ->).
  assert (t' = t) as -> by congruence.
  split; [|split]; intros ->; cbn [String.eqb Ascii.eqb Bool.eqb];
    cbn [set_forms forms]; by rewrite ?lookup_insert.
Qed.

Lemma process_word_pruned session word r :
  process_word session word = Ok r → ∃ word_info, prune word_info = Ok r.
Proof.
  unfold process_word. destruct (get_word_info session word); [|done].
  destruct (word_type_lower _); [|done]. cbn [bind]. eauto.
Qed.

(** C5: in every record that the per-word pipeline yields, the slots that
    do not fit the word type are [None]; the word type is compared
    lower-cased, as the code does. *)
Theorem pruned_slots session word r t :
  process_word session word = Ok r → word_type r = Some t →
  (Py.lower t = "verb" →
     forms r !! "plural" = Some None
     ∧ forms r !! "comparative" = Some None
     ∧ forms r !! "superlative" = Some None)
  ∧ (Py.lower t = "adjective" →
     forms r !! "past_tense" = Some None
     ∧ forms r !! "past_participle" = Some None
     ∧ forms r !! "present_tense" = Some None
     ∧ forms r !! "plural" = Some None)
  ∧ (Py.lower t = "noun" →
     forms r !! "past_tense" = Some None
     ∧ forms r !! "past_participle" = Some None
     ∧ forms r !! "present_tense" = Some None
     ∧ forms r !! "comparative" = Some None
     ∧ forms r !! "superlative" = Some None).
Proof.
  intros [word_info E]%process_word_pruned. by apply (prune_slots word_info).
Qed.

End Pruning.

(** ** Runs of the pipeline *)

Section Runs.

(** The slots of [pruned_slots] on a run that yields a record: the word
    [lezen], every request answered 404. *)
Lemma pruned_slots_lezen :
  ∃ r, process_word not_found "lezen" = Ok r
    ∧ word_type r = Some "verb"
    ∧ forms r !! "plural" = Some None
    ∧ forms r !! "comparative" = Some None
    ∧ forms r !! "superlative" = Some None.
Proof.
  destruct (process_word not_found "lezen") as [r|e] eqn:E;
    [|by vm_compute in E].
  assert (word_type r = Some "verb") as Hty
    by (vm_compute in E; by injection E as <-).
  exists r. split; [done|]. split; [done|].
  exact (proj1 (pruned_slots not_found "lezen" r "verb" E Hty) eq_refl).
Defined.

(** Without data from the lookup the record keeps the word type [None] of
    [get_word_info], and the first statement of the loop body raises. *)
Lemma no_data_raises session word :
  _get_wiktionary_info session (Py.lower (Py.strip word)) = None →
  ∃ e, process_word session word = Raise e.
Proof.
  intros H. unfold process_word, get_word_info. cbn zeta.
  destruct (negb (Py.truthy_str _)); [by exists KeyError|].
  rewrite H. by exists AttributeError.
Qed.

Lemma offline_no_data word : _get_wiktionary_info offline word = None.
Proof. reflexivity. Qed.

(** C2, the code at inputs without data: with no network every word
    raises; so does a word outside the table when every request is answered
    404; and the exception of one word ends the batch. *)
Theorem no_data_aborts :
  (∀ word, ∃ e, process_word offline word = Raise e)
  ∧ process_word offline "tafel" = Raise AttributeError
  ∧ process_word not_found "tafel" = Raise AttributeError
  ∧ process_words_from_file (λ _, offline) (Some [line "lezen"; line "tafel"])
    = Raise AttributeError.
Proof.
  split; [|by vm_compute].
  intros word. apply no_data_raises, offline_no_data.
Qed.

(** C3, the code at the word [werken] without data: the pipeline raises,
    whether the requests fail or are answered 404. *)
Theorem werken_no_data :
  process_word offline "werken" = Raise AttributeError
  ∧ process_word not_found "werken" = Raise AttributeError
  ∧ process_words_from_file (λ _, not_found) (Some [line "werken"])
    = Raise AttributeError.
Proof. by vm_compute. Qed.

(** The inference itself gives [werken] the forms of the rule: it is
    reached when the lookup returns a definition and an empty part of
    speech. *)
Lemma werken_inferred :
  ∃ r, process_word (one_entry (Some "") "to work") "werken" = Ok r
    ∧ word_type r = Some "verb"
    ∧ forms r !! "past_tense" = Some (Some "werkte")
    ∧ forms r !! "past_participle" = Some (Some "gewerkt")
    ∧ forms r !! "plural" = Some None
    ∧ forms r !! "comparative" = Some None
    ∧ forms r !! "superlative" = Some None.
Proof. eexists. by vm_compute. Qed.

(** C4, the code at the word [lezen] with every request answered 404, and
    at [werken] with a lookup that reports a verb: the forms of the final
    record have five keys, and [present_tense] is not one of them. *)
Theorem present_tense_absent :
  (∃ r, process_word not_found "lezen" = Ok r
     ∧ forms r !! "present_tense" = None
     ∧ dom (forms r)
       = list_to_set ["past_tense"; "past_participle"; "plural";
                      "comparative"; "superlative"])
  ∧ (∃ r, process_word (one_entry (Some "Verb") "to work") "werken" = Ok r
     ∧ forms r !! "present_tense" = None
     ∧ dom (forms r)
       = list_to_set ["past_tense"; "past_participle"; "plural";
                      "comparative"; "superlative"]).
Proof. split; eexists; by vm_compute. Qed.

(** C8, the code at a file of three lines, one of them blank: the word of
    the last line gets no data, and the batch yields no record at all;
    without that line it yields the record of [lezen]. *)
Theorem batch_aborts :
  process_words_from_file (λ _, not_found)
    (Some [line "lezen"; line ""; line "tafel"])
  = Raise AttributeError
  ∧ ∃ r, process_words_from_file (λ _, not_found)
           (Some [line "lezen"; line ""])
         = Ok [r]
       ∧ word r = "lezen".
Proof. split; [|eexists]; by vm_compute. Qed.

End Runs.

(** ** The inference of the word type *)

Section Inference.

Implicit Types word t : string.
Implicit Types word_info : WordInfo.

Lemma truthy_dict_insert {V} (k : string) (v : V) (m : gmap string V) :
  Py.truthy_dict (<[k := v]> m) = true.
Proof.
  unfold Py.truthy_dict. rewrite bool_decide_eq_false_2; [done|].
  apply insert_non_empty.
Qed.

(** [_get_noun_forms] gives a plural to every word. *)
Lemma noun_forms_truthy word : Py.truthy_dict (_get_noun_forms word) = true.
Proof.
  unfold _get_noun_forms. repeat case_match; apply truthy_dict_insert.
Qed.

Lemma infer_verb_word_type word is_irregular word_info t :
  let st := infer_verb word is_irregular (word_info, t) in
  (word_type (fst st) = word_type word_info ∧ snd st = t)
  ∨ (word_type (fst st) = Some "verb" ∧ snd st = "verb").
Proof.
  unfold infer_verb. cbn zeta.
  repeat (case_match; simplify_eq/=); auto.
Qed.

Lemma infer_noun_word_type word word_info t :
  let st := infer_noun word (word_info, t) in
  Py.truthy_str (snd st) = true
  ∧ ((word_type (fst st) = word_type word_info ∧ snd st = t)
     ∨ (word_type (fst st) = Some "noun" ∧ snd st = "noun")).
Proof.
  unfold infer_noun. cbn zeta. rewrite noun_forms_truthy.
  destruct (Py.truthy_str t) eqn:Ht; cbn [negb andb].
  - repeat (case_match; simplify_eq/=); auto.
  - change (String.eqb "noun" "noun") with true. cbv iota.
    case_match; cbn [fst snd set_forms set_word_type word_type]; auto.
Qed.

Lemma infer_adjective_word_type word word_info t :
  Py.truthy_str t = true →
  word_type (fst (infer_adjective word (word_info, t)))
  = word_type word_info.
Proof.
  intros Ht. unfold infer_adjective. cbn zeta.
  rewrite Ht, andb_false_r. by case_match.
Qed.

(** The word type that the inference leaves in the record is the one it
    found there, or [verb], or [noun]. *)
Lemma infer_word_type word is_irregular word_info t :
  let r := fst (infer word is_irregular (word_info, t)) in
  word_type r = word_type word_info
  ∨ word_type r = Some "verb"
  ∨ word_type r = Some "noun".
Proof.
  cbn zeta. unfold infer.
  pose proof (infer_verb_word_type word is_irregular word_info t) as Hv.
  destruct (infer_verb word is_irregular (word_info, t)) as [wi1 t1].
  pose proof (infer_noun_word_type word wi1 t1) as [Hn1 Hn].
  destruct (infer_noun word (wi1, t1)) as [wi2 t2].
  cbn [fst snd] in *. rewrite infer_adjective_word_type by done.
  destruct Hv as [[Hv _]|[Hv _]], Hn as [[Hn _]|[Hn _]];
    rewrite Hn, ?Hv; auto.
Qed.

End Inference.

(** ** The word type that the lookup reports *)

Section Lookup.

Implicit Types word t : string.

Lemma add_definition_word_type result d :
  wk_word_type (add_definition result d) = wk_word_type result.
Proof. unfold add_definition. by repeat case_match. Qed.

Lemma fold_add_definition_word_type ds result :
  wk_word_type (fold_left add_definition ds result) = wk_word_type result.
Proof.
  revert result. induction ds as [|d ds IH]; intros result; [done|].
  cbn [fold_left]. rewrite IH. apply add_definition_word_type.
Qed.

Lemma add_entry_word_type result entry t :
  wk_word_type (add_entry result entry) = Some t →
  wk_word_type result = Some t ∨ partOfSpeech entry = Some t.
Proof.
  unfold add_entry. cbn zeta.
  destruct (definitions entry); rewrite ?fold_add_definition_word_type;
    destruct (partOfSpeech entry); try case_match; cbn; auto.
Qed.

Lemma fold_add_entry_word_type entries result t :
  wk_word_type (fold_left add_entry entries result) = Some t →
  wk_word_type result = Some t
  ∨ ∃ entry, entry ∈ entries ∧ partOfSpeech entry = Some t.
Proof.
  revert result. induction entries as [|e entries IH]; intros result H;
    [by left|].
  cbn [fold_left] in H. apply IH in H as [H|(entry & Hin & Hp)].
  - apply add_entry_word_type in H as [H|H]; [by left|].
    right. exists e. split; [left|done].
  - right. exists entry. split; [by right|done].
Qed.

Lemma add_irregular_word_type word result t :
  wk_word_type (add_irregular word result) = Some t →
  wk_word_type result = Some t ∨ t = "verb".
Proof.
  unfold add_irregular. destruct (IRREGULAR_VERBS !! word) as [[pt pp]|];
    [|by left].
  case_match; cbn; [|by left]. intros [= <-]. by right.
Qed.

Lemma add_definitions_word_type session word result t :
  add_definitions (get_definition session word) empty_result = Some result →
  wk_word_type result = Some t →
  supplies session word t.
Proof.
  unfold add_definitions, supplies.
  destruct (get_definition session word) as [|status_code body]; [done|].
  destruct (N.eqb_spec status_code 200) as [->|_].
  - destruct body as [|[nl_data|]]; [done| |by intros [= <-]].
    intros [= <-] H.
    apply fold_add_entry_word_type in H as [H|(entry & Hin & Hp)]; [done|].
    by exists nl_data, entry.
  - by intros [= <-].
Qed.

(** A word type in the result of the lookup is [verb], set for a word of
    the table, or a part of speech of the definitions answer. *)
Lemma wiktionary_word_type session word wiktionary_data t :
  _get_wiktionary_info session word = Some wiktionary_data →
  wk_word_type wiktionary_data = Some t →
  t = "verb" ∨ supplies session word t.
Proof.
  unfold _get_wiktionary_info. cbn zeta.
  destruct (add_definitions _ _) as [result|] eqn:E; [|done].
  case_match; [|done]. intros <-%(inj Some).
  cbn [wk_set_forms wk_word_type].
  intros [Hw| ->]%add_irregular_word_type; [|by left].
  right. by apply (add_definitions_word_type _ _ result).
Qed.

Lemma get_word_info_word_type session word word_info t :
  get_word_info session word = Some word_info →
  word_type word_info = Some t →
  t = "verb" ∨ supplies session (Py.lower (Py.strip word)) t.
Proof.
  unfold get_word_info, _get_woordenboek_info. cbn zeta.
  case_match; [done|].
  destruct (_get_wiktionary_info _ _) as [wiktionary_data|] eqn:E;
    intros [= <-]; [|done].
  cbn [word_type]. by apply wiktionary_word_type.
Qed.

(** C9: the noun step leaves the local word type set, whatever it was; the
    inference leaves in the record the word type it found, [verb] or
    [noun]; and a final record has the word type [adjective], in any
    case, only if the definitions answer carries that part of speech for
    the (stripped, lower-cased) word. *)
Theorem inference_never_adjective :
  (∀ word word_info t,
     Py.truthy_str (snd (infer_noun word (word_info, t))) = true)
  ∧ (∀ word is_irregular word_info t,
       let r := fst (infer word is_irregular (word_info, t)) in
       word_type r = word_type word_info
       ∨ word_type r = Some "verb"
       ∨ word_type r = Some "noun")
  ∧ (∀ session word r t,
       process_word session word = Ok r →
       word_type r = Some t →
       Py.lower t = "adjective" →
       supplies session (Py.lower (Py.strip word)) t).
Proof.
  split; [|split].
  - intros. apply infer_noun_word_type.
  - intros. apply infer_word_type.
  - intros session word r t E Hr Hlow.
    assert (t ≠ "verb" ∧ t ≠ "noun") as [Hv Hn]
      by (split; intros ->; discriminate).
    unfold process_word in E.
    destruct (get_word_info session word) as [word_info|] eqn:Ei; [|done].
    destruct (word_type_lower word_info) as [t0|]; [|done].
    cbn [bind] in E. apply prune_keeps in E as (_ & _ & Hty).
    rewrite Hr in Hty.
    assert (word_type word_info = Some t) as Hi.
    { destruct (_ || _) in Hty; [|done].
      destruct (infer_word_type word (is_irregular_verb word) word_info t0)
        as [H|[H|H]]; congruence. }
    destruct (get_word_info_word_type _ _ _ _ Ei Hi); done.
Qed.

(** The theorem at a run whose record is an adjective: the definitions
    answer for [groot] says [Adjective]. *)
Lemma adjective_supplied_groot :
  ∃ r, process_word (one_entry (Some "Adjective") "big") "groot" = Ok r
    ∧ word_type r = Some "Adjective"
    ∧ supplies (one_entry (Some "Adjective") "big") "groot" "Adjective".
Proof.
  destruct (process_word (one_entry (Some "Adjective") "big") "groot")
    as [r|e] eqn:E; [|by vm_compute in E].
  assert (word_type r = Some "Adjective") as Hty
    by (vm_compute in E; by injection E as <-).
  exists r. split; [done|]. split; [done|].
  exact (proj2 (proj2 inference_never_adjective) _ "groot" r "Adjective"
           E Hty eq_refl).
Defined.

End Lookup.

(** ** The word of a record *)

Section Batch.

Implicit Types w t : string.
Implicit Types word_info r : WordInfo.

Lemma infer_verb_word w is_irregular word_info t :
  word (fst (infer_verb w is_irregular (word_info, t)))
  = word word_info.
Proof.
  unfold infer_verb. cbn zeta. by repeat (case_match; simplify_eq/=).
Qed.

Lemma infer_noun_word w word_info t :
  word (fst (infer_noun w (word_info, t)))
  = word word_info.
Proof.
  unfold infer_noun. cbn zeta. by repeat (case_match; simplify_eq/=).
Qed.

Lemma infer_adjective_word w word_info t :
  word (fst (infer_adjective w (word_info, t)))
  = word word_info.
Proof.
  unfold infer_adjective. cbn zeta. by repeat (case_match; simplify_eq/=).
Qed.

(** The inference does not touch the key [word]. *)
Lemma infer_word w is_irregular word_info t :
  word (fst (infer w is_irregular (word_info, t)))
  = word word_info.
Proof.
  unfold infer.
  pose proof (infer_verb_word w is_irregular word_info t) as Hv.
  destruct (infer_verb w is_irregular (word_info, t)) as [wi1 t1].
  pose proof (infer_noun_word w wi1 t1) as Hn.
  destruct (infer_noun w (wi1, t1)) as [wi2 t2].
  rewrite infer_adjective_word. cbn [fst] in *. congruence.
Qed.

Lemma get_word_info_word session w word_info :
  get_word_info session w = Some word_info →
  word word_info = Py.lower (Py.strip w).
Proof.
  unfold get_word_info, _get_woordenboek_info. cbn zeta.
  case_match; [done|]. intros <-%(inj Some). by case_match.
Qed.

(** The record of a word carries the word stripped and lower-cased. *)
Lemma process_word_word session w r :
  process_word session w = Ok r →
  word r = Py.lower (Py.strip w).
Proof.
  unfold process_word.
  destruct (get_word_info session w) as [word_info|] eqn:Ei; [|done].
  destruct (word_type_lower word_info) as [t|]; [|done]. cbn [bind].
  intros (-> & _ & _)%prune_keeps.
  rewrite <-(get_word_info_word _ _ _ Ei).
  case_match; [apply infer_word|done].
Qed.

Lemma process_loop_words session i words results rs :
  process_loop session i words results = Ok rs →
  map word rs
  = (map word results ++ map (λ w, Py.lower (Py.strip w)) words)%list.
Proof.
  revert i results. induction words as [|w0 words IH]; intros i results.
  - cbn. intros [= <-]. by rewrite app_nil_r.
  - cbn [process_loop].
    destruct (process_word (session i) w0) as [r|] eqn:E; [|done].
    cbn [bind]. intros ->%IH.
    rewrite map_app. cbn [map]. rewrite (process_word_word _ _ _ E).
    by rewrite <-app_assoc.
Qed.

(** When the batch completes, its records carry, in the order of the
    file, the non-blank lines stripped and lower-cased. *)
Lemma batch_words session lines rs :
  process_words_from_file session (Some lines) = Ok rs →
  map word rs
  = map (λ l, Py.lower (Py.strip l))
      (List.filter (λ l, Py.truthy_str (Py.strip l)) lines).
Proof.
  unfold process_words_from_file. intros ->%process_loop_words.
  cbn [map app]. rewrite map_map. apply map_ext. intros l.
  by rewrite strip_idemp.
Qed.

End Batch.

(** ** The words of the table *)

Section Irregular.

Implicit Types w t pt pp : string.
Implicit Types forms : gmap string (option string).

(** The keys of the table are words as [get_word_info] normalises them,
    and no key and no form of the table is the empty string. *)
Lemma table_entries w pt pp :
  IRREGULAR_VERBS !! w = Some (pt, pp) →
  Py.lower (Py.strip w) = w
  ∧ Py.truthy_str w = true
  ∧ Py.truthy_str pt = true
  ∧ Py.truthy_str pp = true.
Proof.
  intros H%elem_of_map_to_list%list_elem_of_In.
  assert (forallb
            (λ e : string * (string * string),
               String.eqb (Py.lower (Py.strip e.1)) e.1
               && Py.truthy_str e.1
               && Py.truthy_str e.2.1 && Py.truthy_str e.2.2)
            (map_to_list IRREGULAR_VERBS) = true) as Hall
    by (by vm_compute).
  rewrite forallb_forall in Hall. apply Hall in H. cbn [fst snd] in H.
  apply andb_prop in H as [[[H1%String.eqb_eq H2]%andb_prop H3]%andb_prop H4].
  done.
Qed.

Lemma any_values_lookup forms key v :
  forms !! key = Some v → Py.truthy v = true → Py.any_values forms = true.
Proof.
  intros Hk Hv. unfold Py.any_values. apply existsb_exists.
  exists v. split; [|done]. apply list_elem_of_In, list_elem_of_fmap.
  exists (key, v). split; [done|]. by apply elem_of_map_to_list.
Qed.

(** The page does not replace a form that is already there. *)
Lemma scrape_truthy html_content key forms patterns :
  Py.truthy (Py.get forms key) = true →
  scrape html_content key forms patterns = (forms, false).
Proof.
  intros H. induction patterns as [|pattern patterns IH]; [done|].
  cbn [scrape]. unfold scrape_pattern.
  destruct (html_content pattern); rewrite ?H; cbn [negb]; done.
Qed.

Lemma add_page_truthy r forms :
  Py.truthy (Py.get forms "past_tense") = true →
  Py.truthy (Py.get forms "past_participle") = true →
  add_page r forms = forms.
Proof.
  intros H1 H2. unfold add_page. destruct r as [|status_code html_content];
    [done|].
  case_match; [|done]. by rewrite !scrape_truthy.
Qed.

Lemma add_definitions_some r result :
  definitions_fail r = false → is_Some (add_definitions r result).
Proof.
  unfold definitions_fail, add_definitions.
  destruct r as [|status_code [|[nl_data|]]]; [done| | |];
    destruct (status_code =? 200)%N; by eauto.
Qed.

(** The lookup of a word of the table, when the definitions request does
    not fail: it returns a result, with the forms of the table and a word
    type that is not empty. *)
Lemma wiktionary_irregular session w pt pp :
  IRREGULAR_VERBS !! w = Some (pt, pp) →
  definitions_fail (get_definition session w) = false →
  ∃ d t,
    _get_wiktionary_info session w = Some d
    ∧ wk_forms d !! "past_tense" = Some (Some pt)
    ∧ wk_forms d !! "past_participle" = Some (Some pp)
    ∧ wk_word_type d = Some t
    ∧ Py.truthy_str t = true
    ∧ ((∀ t', supplies session w t' → t' = "") → t = "verb").
Proof.
  intros Hw Hd. destruct (table_entries _ _ _ Hw) as (_ & _ & Hpt & Hpp).
  destruct (add_definitions_some _ empty_result Hd) as [result E].
  unfold _get_wiktionary_info. cbn zeta. rewrite E.
  unfold add_irregular. rewrite Hw.
  set (result1 := wk_set_forms _ result).
  set (result2 := if negb _ then _ else result1).
  set (forms2 := <["past_participle" := Some pp]> _).
  assert (Py.truthy (Py.get forms2 "past_tense") = true) as H1.
  { unfold Py.get, forms2. by rewrite !lookup_insert. }
  assert (Py.truthy (Py.get forms2 "past_participle") = true) as H2.
  { unfold Py.get, forms2. by rewrite !lookup_insert. }
  cbn [wk_set_forms wk_forms wk_meanings wk_word_type].
  rewrite (add_page_truthy _ _ H1 H2).
  assert (forms2 !! "past_tense" = Some (Some pt)) as L1
    by (unfold forms2; by rewrite !lookup_insert).
  assert (forms2 !! "past_participle" = Some (Some pp)) as L2
    by (unfold forms2; by rewrite !lookup_insert).
  rewrite (any_values_lookup _ _ _ L1 Hpt), orb_true_r.
  assert (∃ t, wk_word_type result2 = Some t ∧ Py.truthy_str t = true
               ∧ ((∀ t', supplies session w t' → t' = "") → t = "verb"))
    as (t & Ht & Htt & Hs).
  { unfold result2, result1. cbn [wk_set_forms wk_word_type].
    destruct (wk_word_type result) as [t|] eqn:Et; cbn [Py.truthy].
    - destruct (Py.truthy_str t) eqn:Htt; cbn [negb].
      + exists t. split; [done|]. split; [done|]. intros Hs.
        pose proof (add_definitions_word_type _ _ _ _ E Et) as ->%Hs.
        done.
      + by exists "verb".
    - by exists "verb". }
  eexists _, t. split; [done|]. cbn [wk_forms wk_word_type]. done.
Qed.

(** C1, as the code has it: for a word of the table whose definitions
    request does not fail, the pipeline yields a record with a word type
    that is not empty, [verb] when the definitions answer carries no part
    of speech that is not empty; its past tense and past participle are
    the pair of the table, whatever the lookup returns, unless the word
    type lower-cased is [noun] or [adjective]: then the clean-up has set
    both to [None]. *)
Theorem irregular_forms_win session w pt pp :
  IRREGULAR_VERBS !! w = Some (pt, pp) →
  definitions_fail (get_definition session w) = false →
  ∃ r t,
    process_word session w = Ok r
    ∧ word_type r = Some t
    ∧ t ≠ ""
    ∧ ((∀ t', supplies session w t' → t' = "") → t = "verb")
    ∧ (forms r !! "past_tense", forms r !! "past_participle")
      = (if String.eqb (Py.lower t) "noun"
            || String.eqb (Py.lower t) "adjective"
         then (Some None, Some None)
         else (Some (Some pt), Some (Some pp))).
Proof.
  intros Hw Hd.
  destruct (table_entries _ _ _ Hw) as (Hlow & Hne & Hpt & Hpp).
  destruct (wiktionary_irregular _ _ _ _ Hw Hd)
    as (d & t & E & L1 & L2 & Ht & Htt & Hs).
  unfold process_word, get_word_info, _get_woordenboek_info. cbn zeta.
  rewrite Hlow, Hne, E. cbn [negb]. cbv beta iota.
  unfold word_type_lower. cbn [word_type forms]. rewrite Ht. cbn [bind].

  rewrite lower_truthy, Htt, (any_values_lookup _ _ _ L1 Hpt).
  cbn [negb orb]. unfold prune, word_type_lower. cbn [word_type].
  cbn [bind forms].
  eexists _, t. split; [done|].
  split; [by repeat case_match|].
  split; [by apply truthy_str_true|]. split; [done|].
  destruct (String.eqb_spec (Py.lower t) "verb") as [Hv|_].
  { rewrite Hv. cbn [set_forms forms]. rewrite !lookup_insert.
    cbn. by rewrite L1, L2. }
  destruct (String.eqb_spec (Py.lower t) "adjective") as [Ha|_].
  { rewrite Ha. cbn [set_forms forms]. by rewrite !lookup_insert. }
  destruct (String.eqb_spec (Py.lower t) "noun") as [Hn|_].
  { cbn [set_forms forms orb]. by rewrite !lookup_insert. }
  cbn [orb forms]. by rewrite L1, L2.
Qed.

(** The theorem at [lezen], every request answered 404. *)
Lemma irregular_forms_win_lezen :
  ∃ r t,
    process_word not_found "lezen" = Ok r
    ∧ word_type r = Some t
    ∧ t ≠ ""
    ∧ ((∀ t', supplies not_found "lezen" t' → t' = "") → t = "verb")
    ∧ (forms r !! "past_tense", forms r !! "past_participle")
      = (if String.eqb (Py.lower t) "noun"
            || String.eqb (Py.lower t) "adjective"
         then (Some None, Some None)
         else (Some (Some "las"), Some (Some "gelezen"))).
Proof.
  apply (irregular_forms_win not_found "lezen" "las" "gelezen").
  - by vm_compute.
  - reflexivity.
Defined.

(** C1 at [eten], a word of the table, when the definitions answer says
    [Noun]: the record has neither form of the table. *)
Lemma irregular_pruned_eten :
  IRREGULAR_VERBS !! "eten" = Some ("at", "gegeten")
  ∧ ∃ r, process_word (one_entry (Some "Noun") "food") "eten" = Ok r
      ∧ word_type r = Some "Noun"
      ∧ forms r !! "past_tense" = Some None
      ∧ forms r !! "past_participle" = Some None.
Proof. split; [|eexists]; by vm_compute. Qed.

End Irregular.

(** ** The rule functions for nouns and adjectives *)

Section Rules.

Implicit Types w : string.

(** X1: every word gets exactly one noun form, its plural: the word followed
    by [s] when it ends in [el], [er] or [en], by [en] otherwise (the
    tests for [heid] and [ing] change nothing). *)
Theorem get_noun_forms_plural w :
  _get_noun_forms w
  = {[ "plural" :=
         w +:+ (if Py.endswith w "el" || Py.endswith w "er"
                   || Py.endswith w "en"
                then "s" else "en") ]}.
Proof.
  unfold _get_noun_forms. cbn zeta. by repeat case_match.
Qed.

(** X2: a word of one or two characters gets no adjective form; a longer
    word gets both, the word followed by [er] and by [st], whatever its
    last letter. *)
Theorem get_adjective_forms_rule w :
  _get_adjective_forms w
  = (if (2 <? String.length w)%nat
     then <["superlative" := w +:+ "st"]>
            (<["comparative" := w +:+ "er"]> ∅)
     else ∅).
Proof.
  unfold _get_adjective_forms. cbn zeta. by repeat case_match.
Qed.

End Rules.

(** ** The normal form of a word *)

Section Normal.

Implicit Types w s : string.

Lemma isspace_lower_char c : Py.isspace (Py.lower_char c) = Py.isspace c.
Proof. destruct c as [[] [] [] [] [] [] [] []]; by vm_compute. Qed.

Lemma lower_char_idemp c :
  Py.lower_char (Py.lower_char c) = Py.lower_char c.
Proof. destruct c as [[] [] [] [] [] [] [] []]; by vm_compute. Qed.

Lemma lower_idemp s : Py.lower (Py.lower s) = Py.lower s.
Proof.
  induction s as [|c s IH]; [done|]. cbn [Py.lower].
  by rewrite lower_char_idemp, IH.
Qed.

Lemma lstrip_lower s : Py.lstrip (Py.lower s) = Py.lower (Py.lstrip s).
Proof.
  induction s as [|c s IH]; [done|]. cbn [Py.lower Py.lstrip].
  rewrite isspace_lower_char. by destruct (Py.isspace c).
Qed.

Lemma rstrip_lower s : Py.rstrip (Py.lower s) = Py.lower (Py.rstrip s).
Proof.
  induction s as [|c s IH]; [done|]. cbn [Py.lower Py.rstrip].
  rewrite IH, isspace_lower_char.
  destruct (Py.rstrip s); cbn [Py.lower]; [by destruct (Py.isspace c)|done].
Qed.

Lemma strip_lower s : Py.strip (Py.lower s) = Py.lower (Py.strip s).
Proof. unfold Py.strip. by rewrite rstrip_lower, lstrip_lower. Qed.

(** Normalising twice is normalising once. *)
Lemma normal_idemp w :
  Py.lower (Py.strip (Py.lower (Py.strip w))) = Py.lower (Py.strip w).
Proof. by rewrite strip_lower, strip_idemp, lower_idemp. Qed.

(** X3: [get_word_info] reads its argument only stripped and lower-cased:
    the case of the word and the white space around it make no
    difference to the dict it returns. *)
Theorem get_word_info_normal session w :
  get_word_info session (Py.lower (Py.strip w)) = get_word_info session w.
Proof. unfold get_word_info. cbn zeta. by rewrite normal_idemp. Qed.

Lemma get_word_info_none session w :
  get_word_info session w = None ↔ Py.strip w = "".
Proof.
  unfold get_word_info. cbn zeta. rewrite lower_truthy.
  destruct (Py.truthy_str (Py.strip w)) eqn:E; cbn [negb].
  - apply truthy_str_true in E. split; [by case_match|done].
  - by apply truthy_str_false in E.
Qed.

(** X4: [get_word_info] returns the empty dict exactly for a word that is
    empty or all white space; otherwise the key [word] of the dict is the
    word stripped and lower-cased, which is not empty. *)
Theorem get_word_info_empty session w :
  (get_word_info session w = None ↔ Py.strip w = "")
  ∧ (∀ word_info,
       get_word_info session w = Some word_info →
       word word_info = Py.lower (Py.strip w) ∧ word word_info ≠ "").
Proof.
  split; [apply get_word_info_none|].
  intros word_info E. rewrite (get_word_info_word _ _ _ E).
  split; [done|]. apply truthy_str_true. rewrite lower_truthy.
  apply truthy_str_true. intros Hw%(get_word_info_none session).
  congruence.
Qed.

End Normal.

(** ** What the lookup returns *)

Section LookupResult.

Implicit Types w t : string.
Implicit Types result d : WiktionaryData.

(** The steps after the definitions block leave the meanings alone. *)
Lemma add_irregular_meanings w result :
  wk_meanings (add_irregular w result) = wk_meanings result.
Proof. unfold add_irregular. by repeat case_match. Qed.

Lemma wiktionary_meanings session w d :
  _get_wiktionary_info session w = Some d →
  ∃ result,
    add_definitions (get_definition session w) empty_result = Some result
    ∧ wk_meanings d = wk_meanings result.
Proof.
  unfold _get_wiktionary_info. cbn zeta.
  destruct (add_definitions _ _) as [result|]; [|done].
  case_match; [|done]. intros <-%(inj Some). exists result.
  split; [done|]. cbn [wk_set_forms wk_meanings].
  by rewrite add_irregular_meanings.
Qed.

Lemma add_definition_clean result (dj : definition_json) :
  Forall clean (wk_meanings result) →
  Forall clean (wk_meanings (add_definition result dj)).
Proof.
  intros H. unfold add_definition. destruct (definition dj); [|done].
  cbn zeta. destruct (Py.truthy_str _) eqn:E; [|done].
  cbn [wk_append_meaning wk_meanings]. apply Forall_app. split; [done|].
  apply Forall_singleton. split; [by apply truthy_str_true|].
  apply strip_idemp.
Qed.

Lemma fold_add_definition_clean ds result :
  Forall clean (wk_meanings result) →
  Forall clean (wk_meanings (fold_left add_definition ds result)).
Proof.
  revert result. induction ds as [|dj ds IH]; intros result H; [done|].
  cbn [fold_left]. by apply IH, add_definition_clean.
Qed.

Lemma add_entry_clean result entry :
  Forall clean (wk_meanings result) →
  Forall clean (wk_meanings (add_entry result entry)).
Proof.
  intros H. unfold add_entry. cbn zeta.
  destruct (definitions entry); [apply fold_add_definition_clean|];
    by repeat case_match.
Qed.

Lemma fold_add_entry_clean entries result :
  Forall clean (wk_meanings result) →
  Forall clean (wk_meanings (fold_left add_entry entries result)).
Proof.
  revert result. induction entries as [|e entries IH]; intros result H;
    [done|].
  cbn [fold_left]. by apply IH, add_entry_clean.
Qed.

Lemma wiktionary_clean session w d :
  _get_wiktionary_info session w = Some d → Forall clean (wk_meanings d).
Proof.
  intros (result & E & ->)%wiktionary_meanings.
  unfold add_definitions in E.
  destruct (get_definition session w) as [|status_code body]; [done|].
  destruct (status_code =? 200)%N; [|by injection E as <-].
  destruct body as [|[nl_data|]]; [done| |by injection E as <-].
  injection E as <-. by apply fold_add_entry_clean.
Qed.

End LookupResult.

(** ** The record of a word *)

Section Record.

Implicit Types w t : string.
Implicit Types word_info r : WordInfo.

Lemma any_str_values_lookup (d : gmap string string) key v :
  d !! key = Some v → Py.truthy_str v = true → Py.any_str_values d = true.
Proof.
  intros Hk Hv. unfold Py.any_str_values. apply existsb_exists.
  exists v. split; [|done]. apply list_elem_of_In, list_elem_of_fmap.
  exists (key, v). split; [done|]. by apply elem_of_map_to_list.
Qed.

Lemma truthy_str_app s c s' : Py.truthy_str (s +:+ String c s') = true.
Proof. by destruct s. Qed.

Lemma truthy_dict_empty {V} : Py.truthy_dict (∅ : gmap string V) = false.
Proof. unfold Py.truthy_dict. by rewrite bool_decide_eq_true_2. Qed.

(** The forms of the verb rule, when there are some, are not empty
    strings. *)
Lemma verb_forms_any w :
  Py.any_str_values (_get_verb_forms w) = Py.truthy_dict (_get_verb_forms w).
Proof.
  unfold _get_verb_forms. cbn zeta.
  destruct (Py.endswith w "en"); [|by vm_compute].
  destruct (0 <? _)%nat; [|by vm_compute].
  set (voiceless := match _ with Some _ => _ | None => false end).
  destruct voiceless; rewrite truthy_dict_insert;
    (eapply (any_str_values_lookup _ "past_tense");
     [by rewrite !lookup_insert|apply truthy_str_app]).
Qed.

Lemma infer_meanings w is_irregular word_info t :
  meanings (fst (infer w is_irregular (word_info, t))) = meanings word_info.
Proof.
  unfold infer, infer_verb, infer_noun, infer_adjective. cbn zeta.
  by repeat (case_match; simplify_eq/=).
Qed.

(** With a word type that is not empty the inference leaves the word type
    of the record alone. *)
Lemma infer_truthy_type w is_irregular word_info t :
  Py.truthy_str t = true →
  word_type (fst (infer w is_irregular (word_info, t))) = word_type word_info.
Proof.
  intros Ht. unfold infer.
  assert (∃ wi1, infer_verb w is_irregular (word_info, t) = (wi1, t)
                 ∧ word_type wi1 = word_type word_info) as (wi1 & -> & <-).
  { unfold infer_verb. rewrite Ht, andb_false_r. cbn [negb].
    repeat case_match; simplify_eq/=; eauto. }
  assert (∃ wi2, infer_noun w (wi1, t) = (wi2, t)
                 ∧ word_type wi2 = word_type wi1) as (wi2 & -> & <-).
  { unfold infer_noun. cbn zeta. rewrite Ht, andb_false_r.
    repeat case_match; simplify_eq/=; eauto. }
  by apply infer_adjective_word_type.
Qed.

(** With an empty word type, and a word that is not in the table, the
    inference says [verb] when the verb rule gives forms and [noun]
    otherwise. *)
Lemma infer_empty_type w word_info :
  word_type (fst (infer w false (word_info, "")))
  = Some (if Py.truthy_dict (_get_verb_forms w) then "verb" else "noun").
Proof.
  unfold infer.
  assert (∃ wi1 t1,
            infer_verb w false (word_info, "") = (wi1, t1)
            ∧ (if Py.truthy_dict (_get_verb_forms w)
               then t1 = "verb" ∧ word_type wi1 = Some "verb"
               else t1 = "")) as (wi1 & t1 & -> & H1).
  { unfold infer_verb. cbn [negb]. cbn zeta. rewrite verb_forms_any.
    destruct (Py.truthy_dict (_get_verb_forms w)); cbn; eauto. }
  assert (∃ wi2 t2,
            infer_noun w (wi1, t1) = (wi2, t2)
            ∧ Py.truthy_str t2 = true
            ∧ word_type wi2
              = Some (if Py.truthy_dict (_get_verb_forms w)
                      then "verb" else "noun")) as (wi2 & t2 & -> & H2 & <-).
  { unfold infer_noun. cbn zeta. rewrite noun_forms_truthy.
    destruct (Py.truthy_dict (_get_verb_forms w)).
    - destruct H1 as [-> H1]. cbn. eauto.
    - subst t1. cbn. case_match; cbn; eauto. }
  by apply infer_adjective_word_type.
Qed.

Lemma prune_ok word_info t :
  word_type word_info = Some t → ∃ r, prune word_info = Ok r.
Proof. intros H. unfold prune, word_type_lower. rewrite H. cbn. eauto. Qed.

(** The dict of [get_word_info] has a word type only from the lookup. *)
Lemma get_word_info_some session w word_info t :
  get_word_info session w = Some word_info →
  word_type word_info = Some t →
  Py.strip w ≠ ""
  ∧ ∃ d, _get_wiktionary_info session (Py.lower (Py.strip w)) = Some d
       ∧ wk_word_type d = Some t
       ∧ word_info
         = {| word := Py.lower (Py.strip w); meanings := wk_meanings d;
              forms := wk_forms d; word_type := wk_word_type d |}.
Proof.
  unfold get_word_info, _get_woordenboek_info. cbn zeta.
  rewrite lower_truthy.
  destruct (Py.truthy_str (Py.strip w)) eqn:Hw; [|done]. cbn [negb].
  apply truthy_str_true in Hw.
  destruct (_get_wiktionary_info _ _) as [d|]; intros <-%(inj Some);
    [|done].
  cbn [word_type]. eauto.
Qed.

Lemma get_word_info_lookup session w d :
  Py.strip w ≠ "" →
  _get_wiktionary_info session (Py.lower (Py.strip w)) = Some d →
  get_word_info session w
  = Some {| word := Py.lower (Py.strip w); meanings := wk_meanings d;
            forms := wk_forms d; word_type := wk_word_type d |}.
Proof.
  intros Hw%truthy_str_true E. unfold get_word_info, _get_woordenboek_info.
  cbn zeta. by rewrite lower_truthy, Hw, E.
Qed.

(** A word of the table, as the loop tests it, is found by the lookup too:
    its word type is not empty and it has forms. *)
Lemma irregular_lookup session w d t :
  is_irregular_verb w = true →
  _get_wiktionary_info session (Py.lower (Py.strip w)) = Some d →
  wk_word_type d = Some t →
  Py.truthy_str t = true ∧ Py.any_values (wk_forms d) = true.
Proof.
  unfold is_irregular_verb. intros [[pt pp] Hw]%bool_decide_eq_true E Ht.
  destruct (table_entries _ _ _ Hw) as (Hlow & _ & Hpt & _).
  rewrite Hlow in E.
  destruct (definitions_fail (get_definition session w)) eqn:Hd.
  - unfold _get_wiktionary_info, add_definitions, definitions_fail in *.
    cbn zeta in E.
    destruct (get_definition session w) as [|status_code [|nl]]; try done.
    by rewrite Hd in E.
  - destruct (wiktionary_irregular _ _ _ _ Hw Hd)
      as (d' & t' & E' & L1 & _ & Ht' & Htt & _).
    assert (d' = d) as -> by congruence.
    split; [congruence|]. by apply (any_values_lookup _ _ _ L1).
Qed.

(** The outcome of the loop body, by the word type that [get_word_info]
    found. *)
Lemma process_word_unfold session w word_info t :
  get_word_info session w = Some word_info →
  word_type word_info = Some t →
  process_word session w
  = prune (if negb (Py.truthy_str t) || negb (Py.any_values (forms word_info))
           then fst (infer w (is_irregular_verb w) (word_info, Py.lower t))
           else word_info).
Proof.
  intros E Ht. unfold process_word, word_type_lower. rewrite E, Ht.
  cbn [bind]. by rewrite lower_truthy.
Qed.

Lemma process_word_inv session w r :
  process_word session w = Ok r →
  ∃ word_info t,
    get_word_info session w = Some word_info
    ∧ word_type word_info = Some t
    ∧ prune (if negb (Py.truthy_str t)
                || negb (Py.any_values (forms word_info))
             then fst (infer w (is_irregular_verb w) (word_info, Py.lower t))
             else word_info) = Ok r.
Proof.
  intros E. destruct (get_word_info session w) as [word_info|] eqn:Ei;
    [|by unfold process_word in E; rewrite Ei in E].
  destruct (word_type word_info) as [t|] eqn:Ht;
    [|by unfold process_word, word_type_lower in E; rewrite Ei, Ht in E].
  rewrite (process_word_unfold _ _ _ _ Ei Ht) in E. eauto.
Qed.

End Record.

(** ** The outcome of the loop body *)

Section Outcome.

Implicit Types w t : string.
Implicit Types word_info r : WordInfo.

(** X5: the loop body yields a record exactly when the word is not blank and
    the lookup returned a result with a word type: a part of speech of the
    definitions answer, or [verb] for a word of the table. *)
Theorem process_word_ok session w :
  (∃ r, process_word session w = Ok r)
  ↔ Py.strip w ≠ ""
    ∧ ∃ d t, _get_wiktionary_info session (Py.lower (Py.strip w)) = Some d
           ∧ wk_word_type d = Some t.
Proof.
  split.
  - intros [r (word_info & t & Ei & Ht & _)%process_word_inv].
    destruct (get_word_info_some _ _ _ _ Ei Ht) as (Hw & d & E & Hd & _).
    eauto.
  - intros (Hw & d & t & E & Ht).
    pose proof (get_word_info_lookup _ _ _ Hw E) as Ei.
    rewrite (process_word_unfold _ _ _ t Ei) by done.
    destruct (_ || _); [|by apply (prune_ok _ t)].
    destruct (infer_word_type w (is_irregular_verb w)
                {| word := Py.lower (Py.strip w); meanings := wk_meanings d;
                   forms := wk_forms d; word_type := wk_word_type d |}
                (Py.lower t)) as [H|[H|H]]; cbn zeta in H.
    + apply (prune_ok _ t). by rewrite H.
    + by apply (prune_ok _ "verb").
    + by apply (prune_ok _ "noun").
Qed.

(** The loop body raises [KeyError] exactly for a blank word. *)
Lemma process_word_key_error session w :
  process_word session w = Raise KeyError ↔ Py.strip w = "".
Proof.
  split.
  - intros E. destruct (get_word_info session w) as [word_info|] eqn:Ei.
    + destruct (word_type word_info) as [t|] eqn:Ht.
      * rewrite (process_word_unfold _ _ _ _ Ei Ht) in E.
        unfold prune, word_type_lower in E.
        by destruct (word_type _) in E.
      * unfold process_word, word_type_lower in E. by rewrite Ei, Ht in E.
    + by apply (get_word_info_none session w).
  - intros Hw%(get_word_info_none session). unfold process_word.
    by rewrite Hw.
Qed.

Lemma process_loop_raise session i words results e :
  Forall (λ w, Py.strip w ≠ "") words →
  process_loop session i words results = Raise e →
  e = AttributeError.
Proof.
  intros Hall. revert i results.
  induction Hall as [|w words Hw _ IH]; intros i results; [done|].
  cbn [process_loop].
  destruct (process_word (session i) w) as [r|e0] eqn:E; cbn [bind].
  - apply IH.
  - intros [= <-]. destruct e0; [done|].
    by apply process_word_key_error in E.
Qed.

Lemma words_not_blank lines :
  Forall (λ w, Py.strip w ≠ "")
    (map Py.strip (List.filter (λ l, Py.truthy_str (Py.strip l)) lines)).
Proof.
  apply Forall_forall. intros w (l & <- & Hl)%list_elem_of_In%in_map_iff.
  apply filter_In in Hl as [_ Hl]. rewrite strip_idemp.
  by apply truthy_str_true.
Qed.

(** X6: the batch never raises [KeyError].  The blank lines are dropped
    before the loop, so every word that the loop body gets is not blank
    and [get_word_info] returns a dict with the key [forms] for it: the
    empty dict, whose reading raises, never occurs in a batch. *)
Theorem batch_no_key_error :
  (∀ session file,
     match process_words_from_file session file with
     | Raise KeyError => False
     | _ => True
     end)
  ∧ (∀ lines,
       Forall (λ w, Py.strip w ≠ ""
                    ∧ ∀ session, is_Some (get_word_info session w))
         (map Py.strip
            (List.filter (λ l, Py.truthy_str (Py.strip l)) lines))).
Proof.
  split.
  - intros session file.
    destruct (process_words_from_file session file) as [rs|e] eqn:E;
      [done|].
    destruct e; [done|]. destruct file as [lines|]; [|done].
    by apply (process_loop_raise _ _ _ _ _ (words_not_blank lines)) in E.
  - intros lines. eapply Forall_impl; [apply words_not_blank|].
    intros w Hw. split; [done|]. intros session.
    destruct (get_word_info session w) eqn:E; [by eexists|].
    by apply get_word_info_none in E.
Qed.

Lemma process_loop_ok session i words results rs :
  process_loop session i words results = Ok rs
  ↔ ∃ rs', rs = (results ++ rs')%list
         ∧ Forall2 (λ kw r, process_word (session kw.1) kw.2 = Ok r)
             (zip (seq i (length words)) words) rs'.
Proof.
  revert i results. induction words as [|w words IH]; intros i results.
  - cbn. split.
    + intros [= <-]. exists []. by rewrite app_nil_r.
    + intros (rs' & -> & ->%Forall2_nil_inv_l). by rewrite app_nil_r.
  - cbn [process_loop length seq zip zip_with]. split.
    + destruct (process_word (session i) w) as [r|] eqn:E; [|done].
      cbn [bind]. intros (rs' & -> & H)%IH. exists (r :: rs').
      split; [by rewrite <-app_assoc|]. by constructor.
    + intros (rs' & -> & H). apply Forall2_cons_inv_l in H
        as (r & rs'' & E & H & ->). cbn [fst snd] in E. rewrite E.
      cbn [bind]. apply IH. exists rs''. by rewrite <-app_assoc.
Qed.

(** X7: the batch completes exactly when the loop body yields a record for
    every non-blank line, stripped, at its turn (counted from 1); its
    records are then these, in the order of the lines. *)
Theorem batch_ok session lines rs :
  let words :=
    map Py.strip (List.filter (λ l, Py.truthy_str (Py.strip l)) lines) in
  process_words_from_file session (Some lines) = Ok rs
  ↔ Forall2 (λ kw r, process_word (session kw.1) kw.2 = Ok r)
      (zip (seq 1 (length words)) words) rs.
Proof.
  cbn zeta. unfold process_words_from_file. rewrite process_loop_ok.
  cbn [app]. split; [by intros (rs' & -> & H)|eauto].
Qed.

Lemma process_word_type session w r :
  process_word session w = Ok r →
  ∃ d t0,
    _get_wiktionary_info session (Py.lower (Py.strip w)) = Some d
    ∧ wk_word_type d = Some t0
    ∧ word_type r
      = Some (if Py.truthy_str t0 then t0
              else if Py.truthy_dict (_get_verb_forms w) then "verb"
              else "noun").
Proof.
  intros (word_info & t & Ei & Ht & E)%process_word_inv.
  destruct (get_word_info_some _ _ _ _ Ei Ht) as (Hw & d & El & Hd & ->).
  exists d, t. split; [done|]. split; [done|].
  apply prune_keeps in E as (_ & _ & ->).
  destruct (Py.truthy_str t) eqn:Htt; cbn [negb orb].
  - case_match; [|done]. rewrite infer_truthy_type; [done|].
    by rewrite lower_truthy.
  - destruct (is_irregular_verb w) eqn:Hirr.
    { destruct (irregular_lookup _ _ _ _ Hirr El Hd); congruence. }
    apply truthy_str_false in Htt as ->. apply infer_empty_type.
Qed.

(** A record has a word type that is a string and is not empty. *)
Lemma process_word_type_some session w r :
  process_word session w = Ok r → ∃ t, word_type r = Some t ∧ t ≠ "".
Proof.
  intros (d & t0 & _ & _ & ->)%process_word_type.
  destruct (Py.truthy_str t0) eqn:Ht0.
  - exists t0. split; [done|]. by apply truthy_str_true.
  - case_match; eauto.
Qed.

(** X8: the word type of a record is the one of the lookup, kept as it was
    written, unless that is the empty string: then it is [verb] when the
    verb rule gives forms for the word as the loop has it, and [noun]
    otherwise.  It is never [None] and never empty. *)
Theorem final_word_type session w r :
  process_word session w = Ok r →
  (∃ d t0,
     _get_wiktionary_info session (Py.lower (Py.strip w)) = Some d
     ∧ wk_word_type d = Some t0
     ∧ word_type r
       = Some (if Py.truthy_str t0 then t0
               else if Py.truthy_dict (_get_verb_forms w) then "verb"
               else "noun"))
  ∧ ∃ t, word_type r = Some t ∧ t ≠ "".
Proof.
  intros E. split; [by apply process_word_type|].
  by apply (process_word_type_some session w).
Qed.

(** X9: the meanings of a record are those of the lookup; each one is
    stripped and not empty. *)
Theorem final_meanings session w r :
  process_word session w = Ok r →
  Forall clean (meanings r)
  ∧ ∃ d, _get_wiktionary_info session (Py.lower (Py.strip w)) = Some d
       ∧ meanings r = wk_meanings d.
Proof.
  intros (word_info & t & Ei & Ht & E)%process_word_inv.
  destruct (get_word_info_some _ _ _ _ Ei Ht) as (Hw & d & El & Hd & ->).
  apply prune_keeps in E as (_ & Hm & _).
  assert (meanings r = wk_meanings d) as ->.
  { rewrite Hm. case_match; [by rewrite infer_meanings|done]. }
  split; [by apply (wiktionary_clean _ _ _ El)|eauto].
Qed.

(** X10: for a word of the table the inference is skipped: the loop body is
    [get_word_info] followed by the clean-up, and the branch that marks an
    irregular verb is never taken. *)
Theorem irregular_skips_inference session w :
  is_irregular_verb w = true →
  process_word session w
  = match get_word_info session w with
    | Some word_info => prune word_info
    | None => Raise KeyError
    end.
Proof.
  intros Hirr.
  destruct (get_word_info session w) as [word_info|] eqn:Ei;
    [|by unfold process_word; rewrite Ei].
  destruct (word_type word_info) as [t|] eqn:Ht.
  - rewrite (process_word_unfold _ _ _ _ Ei Ht).
    destruct (get_word_info_some _ _ _ _ Ei Ht) as (Hw & d & El & Hd & ->).
    destruct (irregular_lookup _ _ _ _ Hirr El Hd) as [-> Hany].
    cbn [forms]. by rewrite Hany.
  - unfold process_word, prune, word_type_lower. by rewrite Ei, Ht.
Qed.

End Outcome.

(** ** The lines of the batch *)

Section BatchLines.

Implicit Types w t : string.

Lemma Forall2_zip_map {A B C} (P : nat * B → C → Prop) (f : A → B)
    (ks : list nat) (l : list A) (rs : list C) :
  Forall2 P (zip ks (map f l)) rs
  ↔ Forall2 (λ kl r, P (kl.1, f kl.2) r) (zip ks l) rs.
Proof.
  revert ks rs. induction l as [|a l IH]; intros ks rs.
  - destruct ks; cbn; split; intros ->%Forall2_nil_inv_l; constructor.
  - destruct ks as [|k ks];
      [cbn; split; intros ->%Forall2_nil_inv_l; constructor|].
    cbn [map zip zip_with]. split.
    + intros (r & rs' & Hr & H & ->)%Forall2_cons_inv_l.
      constructor; [done|]. by apply IH.
    + intros (r & rs' & Hr & H & ->)%Forall2_cons_inv_l.
      constructor; [done|]. by apply IH.
Qed.

(** The loop body at a word, written out: the dict of [get_word_info],
    the inference on the word as the loop has it, the clean-up. *)
Lemma process_word_body session w r :
  process_word session w = Ok r
  ↔ ∃ word_info t,
      get_word_info session w = Some word_info
      ∧ word_type word_info = Some t
      ∧ prune
          (if negb (Py.truthy_str (Py.lower t))
              || negb (Py.any_values (forms word_info))
           then fst (infer w (is_irregular_verb w) (word_info, Py.lower t))
           else word_info)
        = Ok r.
Proof.
  split.
  - intros (word_info & t & Ei & Ht & E)%process_word_inv.
    exists word_info, t. by rewrite lower_truthy.
  - intros (word_info & t & Ei & Ht & E).
    rewrite (process_word_unfold _ _ _ _ Ei Ht). by rewrite lower_truthy in E.
Qed.

(** C10: through the batch.  The key [word] of every record is the line
    stripped and lower-cased.  The batch completes exactly when every
    line that is not blank yields a record at its turn, and the record of
    a line is then the clean-up of the dict that [get_word_info] returns
    for the stripped line, after the inference when it runs; the table
    test and the rule functions of the inference get the stripped line,
    not lower-cased.  So in one batch the lines [werken] and [  WERKEN ],
    with a blank line between them, give two records with the same key,
    the first with the forms of a verb, the second the plural of a noun;
    and the line [LEZEN] is not found by the table test of the loop,
    while the lookup, which gets the word lower-cased, returns the forms
    of the table. *)
Theorem record_word_normalized :
  (∀ session lines rs,
     process_words_from_file session (Some lines) = Ok rs →
     map word rs
     = map (λ l, Py.lower (Py.strip l))
         (List.filter (λ l, Py.truthy_str (Py.strip l)) lines))
  ∧ (∀ session lines rs,
       process_words_from_file session (Some lines) = Ok rs
       ↔ Forall2
           (λ kl r,
              word r = Py.lower (Py.strip kl.2)
              ∧ ∃ word_info t,
                  get_word_info (session kl.1) (Py.strip kl.2)
                  = Some word_info
                  ∧ word_type word_info = Some t
                  ∧ prune
                      (if negb (Py.truthy_str (Py.lower t))
                          || negb (Py.any_values (forms word_info))
                       then fst (infer (Py.strip kl.2)
                                   (is_irregular_verb (Py.strip kl.2))
                                   (word_info, Py.lower t))
                       else word_info)
                    = Ok r)
           (zip
              (seq 1
                 (length
                    (List.filter (λ l, Py.truthy_str (Py.strip l)) lines)))
              (List.filter (λ l, Py.truthy_str (Py.strip l)) lines))
           rs)
  ∧ (∃ r1 r2,
       process_words_from_file (λ _, one_entry (Some "") "to work")
         (Some [line "werken"; line ""; line "  WERKEN "])
       = Ok [r1; r2]
       ∧ word r1 = "werken" ∧ word r2 = "werken"
       ∧ word_type r1 = Some "verb"
       ∧ forms r1 !! "past_tense" = Some (Some "werkte")
       ∧ forms r1 !! "past_participle" = Some (Some "gewerkt")
       ∧ word_type r2 = Some "noun"
       ∧ forms r2 !! "past_tense" = Some None
       ∧ forms r2 !! "plural" = Some (Some "WERKENen"))
  ∧ (∃ r,
       process_words_from_file (λ _, not_found) (Some [line "LEZEN"])
       = Ok [r]
       ∧ word r = "lezen"
       ∧ forms r !! "past_tense" = Some (Some "las")
       ∧ is_irregular_verb (Py.strip (line "LEZEN")) = false
       ∧ is_irregular_verb (Py.lower (Py.strip (line "LEZEN"))) = true)
  ∧ _get_verb_forms (Py.strip (line "WERKEN")) = ∅
  ∧ _get_verb_forms (Py.lower (Py.strip (line "WERKEN")))
    = <["past_participle" := "gewerkt"]> (<["past_tense" := "werkte"]> ∅).
Proof.
  split; [exact batch_words|]. split.
  { intros session lines rs. unfold process_words_from_file.
    rewrite process_loop_ok. cbn [app]. split.
    - intros (rs' & -> & H). rewrite length_map in H.
      apply Forall2_zip_map in H. eapply Forall2_impl; [exact H|].
      intros [k l] r E. cbn [fst snd] in *. split.
      + by rewrite (process_word_word _ _ _ E), strip_idemp.
      + by apply process_word_body.
    - intros H. exists rs. split; [done|]. rewrite length_map.
      apply Forall2_zip_map. eapply Forall2_impl; [exact H|].
      intros [k l] r [_ E]. by apply process_word_body. }
  split; [do 2 eexists; by vm_compute|].
  split; [eexists; by vm_compute|]. by vm_compute.
Qed.

End BatchLines.

(** ** The forms of a record *)

Section Forms.

Implicit Types w t key : string.
Implicit Types forms : gmap string (option string).
Implicit Types word_info r : WordInfo.

(** Membership in a list of slots that is written out. *)
Local Ltac in_slots :=
  unfold slots, lookup_slots in *;
  repeat match goal with H : _ ∈ _ |- _ => apply list_elem_of_In in H end;
  apply list_elem_of_In; cbn [In] in *; intuition (subst; auto 10).

Lemma fills_gaps_refl keys forms : fills_gaps keys forms forms.
Proof. by left. Qed.

Lemma fills_gaps_trans keys forms1 forms2 forms3 :
  fills_gaps keys forms1 forms2 → fills_gaps keys forms2 forms3 →
  fills_gaps keys forms1 forms3.
Proof.
  intros H12 H23 key.
  destruct (H23 key) as [->|(Hk & Hf & v & Hv)]; [apply H12|].
  right. split; [done|]. split; [|by eauto].
  destruct (H12 key) as [E|(_ & Hf1 & v1 & _)]; [|done].
  unfold Py.get in *. by rewrite <-E.
Qed.

Lemma fills_gaps_mono keys keys' forms forms' :
  keys ⊆ keys' → fills_gaps keys forms forms' → fills_gaps keys' forms forms'.
Proof.
  intros Hs H key. destruct (H key) as [->|(Hk & Hf & Hv)]; [by left|].
  right. split; [by apply Hs|done].
Qed.

Lemma fills_gaps_insert keys forms key v :
  key ∈ keys → Py.truthy (Py.get forms key) = false →
  fills_gaps keys forms (<[key := Some v]> forms).
Proof.
  intros Hk Hf key'. rewrite lookup_insert. case_decide as E; [|by left].
  subst key'. right. eauto.
Qed.

Lemma keys_in_fills_gaps keys forms forms' :
  keys_in keys forms → fills_gaps keys forms forms' → keys_in keys forms'.
Proof.
  intros Hin H key Hs. destruct (H key) as [E|(Hk & _)]; [|done].
  apply Hin. by rewrite <-E.
Qed.

Lemma keys_in_insert keys forms key v :
  key ∈ keys → keys_in keys forms → keys_in keys (<[key := v]> forms).
Proof.
  intros Hk Hin key'. rewrite lookup_insert. case_decide; [by subst|].
  apply Hin.
Qed.

Lemma keys_in_mono keys keys' forms :
  keys ⊆ keys' → keys_in keys forms → keys_in keys' forms.
Proof. intros Hs Hin key H. by apply Hs, Hin. Qed.

(** [fill_unset], key by key. *)
Lemma fill_unset_lookup (src : gmap string string) forms key :
  fill_unset src forms !! key
  = if Py.truthy (Py.get forms key) then forms !! key
    else match src !! key with
         | Some v => Some (Some v)
         | None => forms !! key
         end.
Proof.
  unfold fill_unset.
  apply (map_fold_weak_ind
           (λ (r : gmap string (option string)) (m : gmap string string),
              r !! key
              = if Py.truthy (Py.get forms key) then forms !! key
                else match m !! key with
                     | Some v => Some (Some v)
                     | None => forms !! key
                     end)).
  - rewrite lookup_empty. by case_match.
  - intros i x m r Hi IH. rewrite lookup_insert.
    destruct (decide (i = key)) as [->|Hne].
    + rewrite Hi in IH.
      assert (r !! key = forms !! key) as Hr by (by case_match).
      unfold Py.get at 1. rewrite Hr. fold (Py.get forms key).
      destruct (Py.truthy (Py.get forms key)); cbn [negb]; [done|].
      by rewrite lookup_insert, decide_True.
    + destruct (negb (Py.truthy (Py.get r i)));
        [by rewrite lookup_insert, decide_False|done].
Qed.

Lemma fill_unset_fills_gaps keys (src : gmap string string) forms :
  (∀ key, is_Some (src !! key) → key ∈ keys) →
  fills_gaps keys forms (fill_unset src forms).
Proof.
  intros Hsrc key. rewrite fill_unset_lookup.
  destruct (Py.truthy (Py.get forms key)) eqn:Hf; [by left|].
  destruct (src !! key) as [v|] eqn:Hs; [|by left].
  right. split; [by apply Hsrc|]. eauto.
Qed.

Lemma verb_forms_keys w key :
  is_Some (_get_verb_forms w !! key) →
  key ∈ ["past_tense"; "past_participle"].
Proof.
  unfold _get_verb_forms. cbn zeta.
  repeat case_match; rewrite ?lookup_insert, ?lookup_empty;
    repeat case_decide; subst; try (by intros [? [=]]); intros _; in_slots.
Qed.

Lemma adjective_forms_keys w key :
  is_Some (_get_adjective_forms w !! key) →
  key ∈ ["comparative"; "superlative"].
Proof.
  unfold _get_adjective_forms. cbn zeta.
  repeat case_match; rewrite ?lookup_insert, ?lookup_empty;
    repeat case_decide; subst; try (by intros [? [=]]); intros _; in_slots.
Qed.

Lemma noun_forms_plural w : ∃ v, _get_noun_forms w !! "plural" = Some v.
Proof.
  unfold _get_noun_forms. cbn zeta.
  repeat case_match; rewrite lookup_insert; by eauto.
Qed.

Lemma infer_verb_fills_gaps w is_irregular word_info t :
  fills_gaps lookup_slots (forms word_info)
    (forms (fst (infer_verb w is_irregular (word_info, t)))).
Proof.
  unfold infer_verb.
  repeat (case_match; simplify_eq/=); try apply fills_gaps_refl;
    apply fill_unset_fills_gaps; intros key Hk%verb_forms_keys; in_slots.
Qed.

Lemma infer_noun_fills_gaps w word_info t :
  fills_gaps lookup_slots (forms word_info)
    (forms (fst (infer_noun w (word_info, t)))).
Proof.
  unfold infer_noun. cbn zeta.
  destruct (noun_forms_plural w) as [v Hv]. rewrite Hv.
  repeat (case_match; simplify_eq/=); try apply fills_gaps_refl;
    (apply fills_gaps_insert; [in_slots|]);
    match goal with H : _ && _ = true |- _ =>
      apply andb_prop in H as [_ H]; by apply negb_true_iff in H end.
Qed.

Lemma infer_adjective_fills_gaps w word_info t :
  fills_gaps lookup_slots (forms word_info)
    (forms (fst (infer_adjective w (word_info, t)))).
Proof.
  unfold infer_adjective. cbn zeta.
  repeat (case_match; simplify_eq/=); try apply fills_gaps_refl;
    apply fill_unset_fills_gaps; intros key Hk%adjective_forms_keys;
    in_slots.
Qed.

Lemma infer_gaps w is_irregular word_info t :
  fills_gaps lookup_slots (forms word_info)
    (forms (fst (infer w is_irregular (word_info, t)))).
Proof.
  unfold infer.
  pose proof (infer_verb_fills_gaps w is_irregular word_info t) as Hv.
  destruct (infer_verb w is_irregular (word_info, t)) as [wi1 t1].
  pose proof (infer_noun_fills_gaps w wi1 t1) as Hn.
  destruct (infer_noun w (wi1, t1)) as [wi2 t2].
  pose proof (infer_adjective_fills_gaps w wi2 t2) as Ha.
  cbn [fst] in *. eauto using fills_gaps_trans.
Qed.

Lemma lstrip_head s c s' : Py.lstrip s = String c s' → Py.isspace c = false.
Proof.
  induction s as [|c0 s IH]; [done|]. cbn [Py.lstrip].
  destruct (Py.isspace c0) eqn:E; [done|]. by intros [= <- <-].
Qed.

Lemma take_word_idemp s : Py.take_word (Py.take_word s) = Py.take_word s.
Proof.
  induction s as [|c s IH]; [done|]. cbn [Py.take_word].
  destruct (Py.isspace c) eqn:E; [done|]. cbn [Py.take_word].
  by rewrite E, IH.
Qed.

(** The first word of a string is its own first word. *)
Lemma first_word_idemp s v :
  Py.first_word s = Some v → Py.first_word v = Some v.
Proof.
  unfold Py.first_word. destruct (Py.lstrip s) as [|c s'] eqn:E; [done|].
  intros [= <-]. apply lstrip_head in E. cbn [Py.take_word]. rewrite E.
  cbn [Py.lstrip]. rewrite E. cbn [Py.take_word].
  by rewrite E, take_word_idemp.
Qed.

(** What the loop over the patterns of one slot leaves: the forms as they
    were, or with the slot, which had no form, set to a word of more than
    one character. *)
Lemma scrape_cases html_content key forms patterns :
  let forms' := fst (scrape html_content key forms patterns) in
  forms' = forms
  ∨ (Py.truthy (Py.get forms key) = false
     ∧ ∃ v, forms' = <[key := Some v]> forms
          ∧ (1 < String.length v)%nat
          ∧ Py.first_word v = Some v).
Proof.
  cbn zeta. induction patterns as [|pattern patterns IH]; [by left|].
  cbn [scrape]. unfold scrape_pattern.
  destruct (html_content pattern) as [group1|]; [|done].
  destruct (Py.truthy (Py.get forms key)) eqn:Hf; cbn [negb]; [done|].
  destruct (Py.truthy_str _); [|done].
  destruct (Py.first_word _) as [form|] eqn:Ew; [|by left].
  destruct (Py.truthy_str form && _) eqn:Hl; [|done].
  right. split; [done|]. exists form. split; [done|].
  apply andb_prop in Hl as [_ Hl%Nat.ltb_lt].
  split; [done|]. by apply first_word_idemp in Ew.
Qed.

Lemma add_page_cases (page : response html) forms :
  fills_gaps ["past_tense"; "past_participle"] forms (add_page page forms)
  ∧ ∀ key v,
      add_page page forms !! key = Some (Some v) →
      forms !! key = Some (Some v)
      ∨ ((1 < String.length v)%nat ∧ Py.first_word v = Some v).
Proof.
  assert (∀ html_content key forms0 patterns,
            key ∈ ["past_tense"; "past_participle"] →
            let forms' := fst (scrape html_content key forms0 patterns) in
            fills_gaps ["past_tense"; "past_participle"] forms0 forms'
            ∧ ∀ key' v, forms' !! key' = Some (Some v) →
                forms0 !! key' = Some (Some v)
                ∨ ((1 < String.length v)%nat ∧ Py.first_word v = Some v))
    as Hstep.
  { intros html_content key forms0 patterns Hk. cbn zeta.
    destruct (scrape_cases html_content key forms0 patterns)
      as [->|(Hf & v & -> & Hl & Hw)].
    - split; [apply fills_gaps_refl|by left].
    - split; [by apply fills_gaps_insert|].
      intros key' v'. rewrite lookup_insert. case_decide; [|by left].
      intros [= <-]. by right. }
  unfold add_page. destruct page as [|status_code html_content];
    [split; [apply fills_gaps_refl|by left]|].
  destruct (status_code =? 200)%N;
    [|split; [apply fills_gaps_refl|by left]].
  destruct (Hstep html_content "past_tense" forms patterns) as [H1 H1'];
    [in_slots|].
  destruct (scrape html_content "past_tense" forms patterns)
    as [forms1 raised]. cbn [fst] in *.
  destruct raised; [done|].
  destruct (Hstep html_content "past_participle" forms1 part_patterns)
    as [H2 H2']; [in_slots|].
  split; [by eapply fills_gaps_trans|].
  intros key v [Hv|Hv]%H2'; [by apply H1'|by right].
Qed.

Lemma fills_gaps_kept keys forms forms' key v :
  fills_gaps keys forms forms' →
  forms !! key = Some (Some v) → v ≠ "" →
  forms' !! key = Some (Some v).
Proof.
  intros H Hk Hv%truthy_str_true.
  destruct (H key) as [->|(_ & Hf & _)]; [done|].
  unfold Py.get in Hf. rewrite Hk in Hf. cbn in Hf. congruence.
Qed.

Lemma fills_gaps_other keys forms forms' key :
  fills_gaps keys forms forms' → key ∉ keys → forms' !! key = forms !! key.
Proof. intros H Hk. by destruct (H key) as [->|(? & _)]. Qed.

(** X11: the inference only fills gaps: a form that is there is never
    replaced, and no key but the five slots of the rules is touched. *)
Theorem infer_fills_gaps w is_irregular word_info t :
  let forms' := forms (fst (infer w is_irregular (word_info, t))) in
  (∀ key v,
     forms word_info !! key = Some (Some v) → v ≠ "" →
     forms' !! key = Some (Some v))
  ∧ (∀ key, key ∉ lookup_slots → forms' !! key = forms word_info !! key)
  ∧ (∀ key, forms' !! key ≠ forms word_info !! key →
       ∃ v, forms' !! key = Some (Some v)).
Proof.
  cbn zeta. pose proof (infer_gaps w is_irregular word_info t) as H.
  split; [|split].
  - intros key v. by apply (fills_gaps_kept lookup_slots).
  - intros key. by apply fills_gaps_other.
  - intros key Hne. by destruct (H key) as [?|(_ & _ & ?)].
Qed.

(** X12: the page only fills gaps, and only the two slots of the past: a form
    that is there is never replaced, no other key is touched, and what the
    page puts in a slot is one word of more than one character. *)
Theorem add_page_fills_gaps (page : response html) forms :
  (∀ key v,
     forms !! key = Some (Some v) → v ≠ "" →
     add_page page forms !! key = Some (Some v))
  ∧ (∀ key,
       key ∉ ["past_tense"; "past_participle"] →
       add_page page forms !! key = forms !! key)
  ∧ (∀ key v,
       add_page page forms !! key = Some (Some v) →
       forms !! key = Some (Some v)
       ∨ ((1 < String.length v)%nat ∧ Py.first_word v = Some v)).
Proof.
  destruct (add_page_cases page forms) as [H H'].
  split; [|split; [|done]].
  - intros key v. by apply (fills_gaps_kept ["past_tense"; "past_participle"]).
  - intros key. by apply fills_gaps_other.
Qed.

Lemma add_inflection_keys forms infl :
  keys_in lookup_slots forms → keys_in lookup_slots (add_inflection forms infl).
Proof.
  intros H. unfold add_inflection. destruct (features infl); [|done].
  cbn zeta.
  repeat match goal with
         | |- keys_in _ (if ?b then _ else _) => destruct b
         | |- keys_in _ (<[_ := _]> _) => apply keys_in_insert; [in_slots|]
         end; done.
Qed.

Lemma fold_add_inflection_keys infls forms :
  keys_in lookup_slots forms →
  keys_in lookup_slots (fold_left add_inflection infls forms).
Proof.
  revert forms. induction infls as [|infl infls IH]; intros forms H; [done|].
  cbn [fold_left]. by apply IH, add_inflection_keys.
Qed.

Lemma fold_add_inflection_entry_keys entries forms :
  keys_in lookup_slots forms →
  keys_in lookup_slots (fold_left add_inflection_entry entries forms).
Proof.
  revert forms. induction entries as [|e entries IH]; intros forms H; [done|].
  cbn [fold_left]. apply IH. unfold add_inflection_entry.
  destruct (inflectionOf e); [by apply fold_add_inflection_keys|done].
Qed.

Lemma add_inflections_keys resp forms :
  keys_in lookup_slots forms →
  keys_in lookup_slots (add_inflections resp forms).
Proof.
  intros H. unfold add_inflections.
  destruct resp as [|status_code [|[nl_infl|]]]; try done.
  destruct (status_code =? 200)%N; [|done].
  by apply fold_add_inflection_entry_keys.
Qed.

Lemma add_definition_forms (result : WiktionaryData) dj :
  wk_forms (add_definition result dj) = wk_forms result.
Proof. unfold add_definition. by repeat case_match. Qed.

Lemma fold_add_definition_forms ds (result : WiktionaryData) :
  wk_forms (fold_left add_definition ds result) = wk_forms result.
Proof.
  revert result. induction ds as [|dj ds IH]; intros result; [done|].
  cbn [fold_left]. by rewrite IH, add_definition_forms.
Qed.

Lemma add_entry_forms (result : WiktionaryData) entry :
  wk_forms (add_entry result entry) = wk_forms result.
Proof.
  unfold add_entry. cbn zeta.
  destruct (definitions entry); rewrite ?fold_add_definition_forms;
    by repeat case_match.
Qed.

Lemma fold_add_entry_forms entries (result : WiktionaryData) :
  wk_forms (fold_left add_entry entries result) = wk_forms result.
Proof.
  revert result. induction entries as [|e entries IH]; intros result; [done|].
  cbn [fold_left]. by rewrite IH, add_entry_forms.
Qed.

(** The definitions block does not touch the forms. *)
Lemma add_definitions_forms resp (result result' : WiktionaryData) :
  add_definitions resp result = Some result' →
  wk_forms result' = wk_forms result.
Proof.
  unfold add_definitions. destruct resp as [|status_code body]; [done|].
  destruct (status_code =? 200)%N; [|by intros [= <-]].
  destruct body as [|[nl_data|]]; [done| |by intros [= <-]].
  intros [= <-]. apply fold_add_entry_forms.
Qed.

Lemma add_irregular_keys w (result : WiktionaryData) :
  keys_in lookup_slots (wk_forms result) →
  keys_in lookup_slots (wk_forms (add_irregular w result)).
Proof.
  intros H. unfold add_irregular.
  destruct (IRREGULAR_VERBS !! w) as [[pt pp]|]; [|done].
  cbn [wk_set_forms wk_forms]. do 2 (apply keys_in_insert; [in_slots|]).
  by case_match.
Qed.

(** The forms of the lookup have keys among the five slots it fills. *)
Lemma wiktionary_keys session w d :
  _get_wiktionary_info session w = Some d → keys_in lookup_slots (wk_forms d).
Proof.
  unfold _get_wiktionary_info. cbn zeta.
  destruct (add_definitions _ _) as [result|] eqn:E; [|done].
  apply add_definitions_forms in E. cbn [empty_result wk_forms] in E.
  case_match; [|done]. intros <-%(inj Some). cbn [wk_set_forms wk_forms].
  eapply keys_in_fills_gaps;
    [|eapply fills_gaps_mono; [|apply add_page_cases]].
  - apply add_irregular_keys. cbn [wk_set_forms wk_forms].
    apply add_inflections_keys. rewrite E. intros key [v Hv].
    by rewrite lookup_empty in Hv.
  - intros key Hk. in_slots.
Qed.

Lemma prune_lookup word_info r key :
  prune word_info = Ok r →
  forms r !! key = forms word_info !! key
  ∨ (forms r !! key = Some None ∧ key ∈ slots).
Proof.
  intros (t & _ & ->)%prune_inv.
  repeat case_match; cbn [set_forms forms]; rewrite ?lookup_insert;
    repeat case_decide; subst; auto; right; (split; [done|in_slots]).
Qed.

Lemma get_word_info_keys session w word_info :
  get_word_info session w = Some word_info →
  keys_in slots (forms word_info)
  ∧ Py.get (forms word_info) "present_tense" = None.
Proof.
  unfold get_word_info, _get_woordenboek_info. cbn zeta.
  case_match; [done|].
  destruct (_get_wiktionary_info _ _) as [d|] eqn:E;
    intros <-%(inj Some); cbn [forms].
  - apply wiktionary_keys in E. split.
    + eapply keys_in_mono; [|done]. intros key Hk. in_slots.
    + unfold Py.get. destruct (wk_forms d !! "present_tense") eqn:Hp; [|done].
      assert ("present_tense" ∈ lookup_slots) as Hin by (apply E; eauto).
      apply list_elem_of_In in Hin. cbn in Hin.
      repeat destruct Hin as [?|Hin]; done.
  - split; [|done].
    repeat (apply keys_in_insert; [in_slots|]). intros key [v Hv].
    by rewrite lookup_empty in Hv.
Qed.

(** X13: the forms of a record have no key but the six slots, and the slot
    [present_tense] never holds a form: it is absent or [None]. *)
Theorem final_forms_keys session w r :
  process_word session w = Ok r →
  (∀ key, is_Some (forms r !! key) → key ∈ slots)
  ∧ Py.get (forms r) "present_tense" = None.
Proof.
  intros (word_info & t & Ei & Ht & E)%process_word_inv.
  destruct (get_word_info_keys _ _ _ Ei) as [Hk Hp].
  match type of E with prune ?x = _ => set (word_info' := x) in E end.
  assert (keys_in slots (forms word_info')
          ∧ Py.get (forms word_info') "present_tense" = None) as [Hk' Hp'].
  { unfold word_info'. case_match; [|done].
    pose proof (infer_gaps w (is_irregular_verb w) word_info (Py.lower t))
      as Hg.
    split.
    - eapply keys_in_fills_gaps; [done|].
      eapply fills_gaps_mono; [|done]. intros key Hin. in_slots.
    - unfold Py.get. rewrite (fills_gaps_other _ _ _ _ Hg); [done|].
      intros Hin. apply list_elem_of_In in Hin. cbn in Hin.
      repeat destruct Hin as [?|Hin]; done. }
  split.
  - intros key Hs.
    destruct (prune_lookup _ _ key E) as [Hl|[_ ?]]; [|done].
    apply Hk'. by rewrite <-Hl.
  - unfold Py.get in *.
    destruct (prune_lookup _ _ "present_tense" E) as [->|[-> _]]; done.
Qed.

(** X14: a form that the lookup returned is kept in the record or cleared by
    the clean-up; it is never replaced by another form. *)
Theorem lookup_forms_kept session w r :
  process_word session w = Ok r →
  ∃ d, _get_wiktionary_info session (Py.lower (Py.strip w)) = Some d
     ∧ ∀ key v,
         wk_forms d !! key = Some (Some v) → v ≠ "" →
         forms r !! key = Some (Some v) ∨ forms r !! key = Some None.
Proof.
  intros (word_info & t & Ei & Ht & E)%process_word_inv.
  destruct (get_word_info_some _ _ _ _ Ei Ht) as (Hw & d & El & Hd & ->).
  exists d. split; [done|]. intros key v Hk Hv.
  destruct (prune_lookup _ _ key E) as [->|[-> _]]; [|by right].
  left. case_match; [|done].
  by eapply (fills_gaps_kept lookup_slots); [apply infer_gaps|..].
Qed.

End Forms.

(** ** The lookup *)

Section LookupOutcome.

Implicit Types w t : string.
Implicit Types result d : WiktionaryData.

(** X15: when the definitions request raises, or its body is not JSON, the
    lookup returns [None], whatever the other two requests would answer
    and whether or not the word is in the table. *)
Theorem lookup_fails_with_definitions session w :
  definitions_fail (get_definition session w) = true →
  _get_wiktionary_info session w = None.
Proof.
  unfold definitions_fail, _get_wiktionary_info, add_definitions.
  cbn zeta. destruct (get_definition session w) as [|status_code [|nl]];
    [done| |done].
  by intros ->.
Qed.

Lemma any_values_inv (forms : gmap string (option string)) :
  Py.any_values forms = true →
  ∃ key v, forms !! key = Some (Some v) ∧ v ≠ "".
Proof.
  unfold Py.any_values.
  intros (x & Hin & Hx)%existsb_exists.
  apply list_elem_of_In, list_elem_of_fmap in Hin as ([key x'] & -> & Hin).
  apply elem_of_map_to_list in Hin. cbn [snd] in *.
  destruct x' as [v|]; [|done]. exists key, v. split; [done|].
  by apply truthy_str_true.
Qed.

(** X16: a result of the lookup is never empty: it has a meaning or a form.
    A word for which the requests gave nothing gets [None]. *)
Theorem lookup_some_has_data session w d :
  _get_wiktionary_info session w = Some d →
  wk_meanings d ≠ []
  ∨ ∃ key v, wk_forms d !! key = Some (Some v) ∧ v ≠ "".
Proof.
  unfold _get_wiktionary_info. cbn zeta.
  destruct (add_definitions _ _) as [result|]; [|done].
  destruct (negb (bool_decide _)) eqn:Hm; cbn [orb].
  - intros <-%(inj Some). left.
    by apply negb_true_iff, bool_decide_eq_false in Hm.
  - destruct (Py.any_values _) eqn:Ha; [|done].
    intros <-%(inj Some). right. by apply any_values_inv.
Qed.

Lemma add_entry_truthy result entry :
  Py.truthy (wk_word_type result) = true →
  wk_word_type (add_entry result entry) = wk_word_type result.
Proof.
  intros H. unfold add_entry. cbn zeta. rewrite H. cbn [negb].
  destruct (definitions entry); rewrite ?fold_add_definition_word_type;
    by case_match.
Qed.

Lemma fold_add_entry_truthy entries result :
  Py.truthy (wk_word_type result) = true →
  wk_word_type (fold_left add_entry entries result) = wk_word_type result.
Proof.
  revert result. induction entries as [|e entries IH]; intros result H;
    [done|].
  cbn [fold_left]. rewrite IH; rewrite add_entry_truthy; done.
Qed.

Lemma add_entry_falsy result entry :
  Py.truthy (wk_word_type result) = false →
  wk_word_type (add_entry result entry)
  = match partOfSpeech entry with
    | Some pos => Some pos
    | None => wk_word_type result
    end.
Proof.
  intros H. unfold add_entry. cbn zeta. rewrite H. cbn [negb].
  destruct (definitions entry); rewrite ?fold_add_definition_word_type;
    by case_match.
Qed.

Lemma fold_add_entry_falsy entries result :
  Forall (λ e, Py.truthy (partOfSpeech e) = false) entries →
  Py.truthy (wk_word_type result) = false →
  Py.truthy (wk_word_type (fold_left add_entry entries result)) = false.
Proof.
  intros Hall. revert result.
  induction Hall as [|e entries He _ IH]; intros result H; [done|].
  cbn [fold_left]. apply IH. rewrite add_entry_falsy by done.
  by destruct (partOfSpeech e).
Qed.

Lemma add_irregular_truthy w result :
  Py.truthy (wk_word_type result) = true →
  wk_word_type (add_irregular w result) = wk_word_type result.
Proof.
  intros H. unfold add_irregular.
  destruct (IRREGULAR_VERBS !! w) as [[pt pp]|]; [|done].
  by rewrite H.
Qed.

(** X17: the word type of the lookup is the first part of speech of the
    definitions answer that is not empty, also for a word of the table:
    the entries before it that have no part of speech, or an empty one,
    do not count, and the entries after it are not read for the type. *)
Theorem first_part_of_speech session w skipped entry rest t d :
  get_definition session w
  = Response 200 (Json (Some (skipped ++ entry :: rest)%list)) →
  Forall (λ e, Py.truthy (partOfSpeech e) = false) skipped →
  partOfSpeech entry = Some t →
  t ≠ "" →
  _get_wiktionary_info session w = Some d →
  wk_word_type d = Some t.
Proof.
  intros Hr Hskip Hp Ht%truthy_str_true.
  unfold _get_wiktionary_info, add_definitions. rewrite Hr.
  cbn zeta. cbn [N.eqb Pos.eqb]. case_match; [|done].
  intros <-%(inj Some). cbn [wk_set_forms wk_word_type].
  rewrite fold_left_app. cbn [fold_left].
  assert (wk_word_type
            (fold_left add_entry rest
               (add_entry (fold_left add_entry skipped empty_result) entry))
          = Some t) as Hty.
  { rewrite fold_add_entry_truthy; rewrite add_entry_falsy, Hp;
      try done; by apply fold_add_entry_falsy. }
  rewrite add_irregular_truthy; cbn [wk_set_forms wk_word_type];
    by rewrite Hty.
Qed.

End LookupOutcome.

(** ** The display and [main] *)

Section Display.

Implicit Types word_info r : WordInfo.
Implicit Types results rs : list WordInfo.

Lemma omap_app_nil {A B} (f : A → option B) l1 l2 :
  omap f l2 = [] → omap f (l1 ++ l2)%list = omap f l1.
Proof. intros H. by rewrite omap_app, H, app_nil_r. Qed.

Lemma omap_cons_none {A B} (f : A → option B) x l :
  f x = None → omap f (x :: l) = omap f l.
Proof. intros H. cbn. by rewrite H. Qed.

Lemma omap_cons {A B} (f : A → option B) x l :
  omap f (x :: l) = (option_list (f x) ++ omap f l)%list.
Proof. cbn. by destruct (f x). Qed.

Lemma omap_empty {A B} (f : A → option B) : omap f [] = [].
Proof. done. Qed.

Lemma omap_meaning_lines (ms : list string) :
  omap printed_meaning (map MeaningLine ms) = ms.
Proof. induction ms as [|m ms IH]; [done|]. cbn. by rewrite IH. Qed.

Lemma omap_form_lines (ms : list string) :
  omap printed_form (map MeaningLine ms) = [].
Proof. by induction ms. Qed.

Lemma form_line_meaning valid key label :
  omap printed_meaning (form_line valid key label) = [].
Proof. unfold form_line. by repeat case_match. Qed.

Lemma valid_forms_lookup (forms : gmap string (option string)) key :
  valid_forms forms !! key = mjoin (forms !! key).
Proof.
  unfold valid_forms. rewrite lookup_omap. by destruct (forms !! key).
Qed.

Lemma form_line_form (forms : gmap string (option string)) key label :
  omap printed_form (form_line (valid_forms forms) key label)
  = option_list
      match forms !! key with
      | Some (Some form) =>
          if Py.truthy_str form then Some (label, form) else None
      | _ => None
      end.
Proof.
  unfold form_line. rewrite valid_forms_lookup.
  destruct (forms !! key) as [[form|]|]; cbn; [|done..].
  by destruct (Py.truthy_str form).
Qed.

Lemma valid_forms_empty (forms : gmap string (option string)) key :
  Py.truthy_dict (valid_forms forms) = false →
  forms !! key = None ∨ forms !! key = Some None.
Proof.
  unfold Py.truthy_dict. intros H%negb_false_iff%bool_decide_eq_true.
  pose proof (valid_forms_lookup forms key) as Hk.
  rewrite H, lookup_empty in Hk.
  destruct (forms !! key) as [[form|]|]; [done|by right|by left].
Qed.

(** X18: what the display shows of a record: the meanings printed are the
    first three of the record, in order; the forms printed are, in the
    order of the display, those of the slots that hold a string that is
    not empty.  A slot that is absent, [None] or empty is never shown. *)
Theorem display_word_shows i word_info :
  let out := fst (display_word i word_info) in
  omap printed_meaning out = take 3 (meanings word_info)
  ∧ omap printed_form out
    = omap (λ '(key, label),
              match forms word_info !! key with
              | Some (Some form) =>
                  if Py.truthy_str form then Some (label, form) else None
              | _ => None
              end) form_labels.
Proof.
  cbn zeta. unfold display_word. cbn zeta.
  set (out1 := match word_type word_info with
               | Some t => if Py.truthy_str t then _ else _
               | None => _
               end).
  assert (omap printed_meaning out1 = [] ∧ omap printed_form out1 = [])
    as [Hm1 Hf1] by (unfold out1; by repeat case_match).
  set (out2 := if negb _ then (out1 ++ _)%list else _).
  assert (omap printed_meaning out2 = take 3 (meanings word_info)
          ∧ omap printed_form out2 = []) as [Hm2 Hf2].
  { unfold out2. case_bool_decide as Em; cbn [negb].
    - rewrite Em, !omap_app, Hm1, Hf1. done.
    - rewrite !omap_app, Hm1, Hf1, !omap_cons_none by done.
      by rewrite omap_meaning_lines, omap_form_lines. }
  clearbody out2. clear out1 Hm1 Hf1.
  destruct (Py.truthy_dict (valid_forms (forms word_info))) eqn:Hv.
  - assert (∀ tail : list printed,
              omap printed_meaning tail = [] → omap printed_form tail = [] →
              omap printed_meaning
                (out2 ++ [FormsHeader]
                 ++ form_line (valid_forms (forms word_info))
                      "past_tense" "Past Tense"
                 ++ form_line (valid_forms (forms word_info))
                      "past_participle" "Past Participle"
                 ++ form_line (valid_forms (forms word_info))
                      "present_tense" "Present Tense"
                 ++ form_line (valid_forms (forms word_info))
                      "plural" "Plural"
                 ++ form_line (valid_forms (forms word_info))
                      "comparative" "Comparative"
                 ++ form_line (valid_forms (forms word_info))
                      "superlative" "Superlative" ++ tail)%list
              = take 3 (meanings word_info)
              ∧ omap printed_form
                  (out2 ++ [FormsHeader]
                   ++ form_line (valid_forms (forms word_info))
                        "past_tense" "Past Tense"
                   ++ form_line (valid_forms (forms word_info))
                        "past_participle" "Past Participle"
                   ++ form_line (valid_forms (forms word_info))
                        "present_tense" "Present Tense"
                   ++ form_line (valid_forms (forms word_info))
                        "plural" "Plural"
                   ++ form_line (valid_forms (forms word_info))
                        "comparative" "Comparative"
                   ++ form_line (valid_forms (forms word_info))
                        "superlative" "Superlative" ++ tail)%list
                = omap (λ '(key, label),
                          match forms word_info !! key with
                          | Some (Some form) =>
                              if Py.truthy_str form
                              then Some (label, form) else None
                          | _ => None
                          end) form_labels) as Hall.
    { intros tail Htm Htf. rewrite !omap_app, Hm2, Hf2, Htm, Htf.
      rewrite !form_line_meaning, !form_line_form. split; [by rewrite app_nil_r|].
      unfold form_labels. rewrite !omap_cons, !omap_empty.
      cbn [printed_form option_list app]. rewrite !app_nil_r.
      reflexivity. }
    destruct (word_type_lower word_info) as [t|e]; cbn [fst].
    + destruct (_ && _).
      * rewrite <-!app_assoc.
        apply (Hall [IrregularNote; BlankLine]); done.
      * rewrite <-!app_assoc. apply (Hall [BlankLine]); done.
    + rewrite <-(app_nil_r (form_line _ "superlative" _)).
      apply (Hall []); done.
  - cbn [fst]. rewrite !omap_app, Hm2, Hf2. split; [apply app_nil_r|].
    unfold form_labels. rewrite !omap_cons, !omap_empty.
    repeat match goal with
           | |- context [forms word_info !! ?k] =>
               destruct (valid_forms_empty _ k Hv) as [-> | ->]
           end; reflexivity.
Qed.

Lemma display_word_ok i word_info t :
  word_type word_info = Some t → snd (display_word i word_info) = None.
Proof.
  intros Ht. unfold display_word, word_type_lower. cbn zeta. rewrite Ht.
  by case_match.
Qed.

Lemma display_loop_ok i results :
  Forall (λ r, is_Some (word_type r)) results →
  snd (display_loop i results) = None.
Proof.
  intros Hall. revert i.
  induction Hall as [|r results [t Ht] _ IH]; intros i; [done|].
  cbn [display_loop]. pose proof (display_word_ok i r t Ht) as Hr.
  destruct (display_word i r) as [out [e|]]; [done|].
  specialize (IH (S i)). by destruct (display_loop (S i) results).
Qed.

Lemma display_results_ok results :
  Forall (λ r, is_Some (word_type r)) results →
  snd (display_results results) = None.
Proof.
  intros H%(display_loop_ok 1). unfold display_results.
  by destruct (display_loop 1 results).
Qed.

Lemma process_loop_types session i words results rs :
  Forall (λ r, is_Some (word_type r)) results →
  process_loop session i words results = Ok rs →
  Forall (λ r, is_Some (word_type r)) rs.
Proof.
  revert i results. induction words as [|w words IH]; intros i results H.
  - by intros [= <-].
  - cbn [process_loop].
    destruct (process_word (session i) w) as [r|] eqn:E; [|done].
    cbn [bind]. apply IH. apply Forall_app. split; [done|].
    apply Forall_singleton.
    destruct (process_word_type_some _ _ _ E) as (t & -> & _). by eexists.
Qed.

Lemma batch_types session file rs :
  process_words_from_file session file = Ok rs →
  Forall (λ r, is_Some (word_type r)) rs.
Proof.
  destruct file as [lines|]; [|by intros [= <-]].
  by apply process_loop_types.
Qed.

(** X19: the display of the records of a batch raises no exception: every
    record of a batch has a word type, so the test for the note on
    irregular verbs, which calls [lower] on it, is safe.  (On a record
    with forms and the word type [None] the display raises.) *)
Theorem display_after_batch :
  (∀ session file rs,
     process_words_from_file session file = Ok rs →
     snd (display_results rs) = None)
  ∧ (∀ word_info,
       word_type word_info = None →
       Py.truthy_dict (valid_forms (forms word_info)) = true →
       snd (display_results [word_info]) = Some AttributeError).
Proof.
  split.
  - intros session file rs E. by apply display_results_ok, (batch_types _ _ _ E).
  - intros word_info Ht Hv. unfold display_results. cbn [display_loop].
    unfold display_word, word_type_lower. cbn zeta. by rewrite Hv, Ht.
Qed.


(** X21: when the input file does not exist, or all its lines are blank,
    [main] says that no words were processed: it makes no request,
    displays nothing and writes no output file. *)
Theorem main_no_words prog words_file rest files session :
  files words_file = None
  ∨ (∃ lines, files words_file = Some lines
            ∧ Forall (λ l, Py.strip l = "") lines) →
  main (prog :: words_file :: rest) files session = NoWords.
Proof.
  intros [H|(lines & H & Hall)]; unfold main; rewrite H; [done|].
  unfold process_words_from_file.
  assert (List.filter (λ l, Py.truthy_str (Py.strip l)) lines = []) as ->;
    [|done].
  clear H. induction Hall as [|l lines Hl _ IH]; [done|].
  cbn [List.filter]. by rewrite Hl, IH.
Qed.

(** X22: [main] calls [save_results] only with the records of a batch that
    completed and is not empty, after their display, and only for an
    output file given as the second argument and not empty. *)
Theorem main_saves argv files session out output_file results :
  main argv files session = Displayed out (Some (output_file, results)) →
  ∃ prog words_file rest,
    argv = prog :: words_file :: output_file :: rest
    ∧ output_file ≠ ""
    ∧ results ≠ []
    ∧ process_words_from_file session (files words_file) = Ok results
    ∧ display_results results = (out, None).
Proof.
  unfold main. destruct argv as [|prog [|words_file rest]]; [done..|].
  cbn zeta.
  destruct (process_words_from_file _ _) as [rs|] eqn:E; [|done].
  case_bool_decide as Hrs; cbn [negb]; [done|].
  destruct (display_results rs) as [out' [e|]] eqn:Ed; [done|].
  destruct rest as [|o rest]; [done|]. cbn [head].
  destruct (Py.truthy_str o) eqn:Ho; [|done].
  intros [= <- <- <-]. exists prog, words_file, rest.
  by apply truthy_str_true in Ho.
Qed.

End Display.

(** ** The theorems at concrete runs *)

Section Instances.

Lemma final_word_type_werken :
  ∃ r, process_word verb_session "werken" = Ok r
    ∧ word_type r = Some "Verb".
Proof.
  destruct (process_word verb_session "werken") as [r|e] eqn:E;
    [|by vm_compute in E].
  exists r. split; [done|].
  destruct (final_word_type verb_session "werken" r E)
    as [(d & t0 & Hd & Ht0 & ->) _].
  vm_compute in Hd. injection Hd as <-. vm_compute in Ht0.
  by injection Ht0 as <-.
Defined.

Lemma final_meanings_werken :
  ∃ r, process_word verb_session "werken" = Ok r
    ∧ Forall clean (meanings r).
Proof.
  destruct (process_word verb_session "werken") as [r|e] eqn:E;
    [|by vm_compute in E].
  exists r. split; [done|].
  exact (proj1 (final_meanings verb_session "werken" r E)).
Defined.

Lemma irregular_skips_inference_lezen :
  process_word not_found "lezen"
  = match get_word_info not_found "lezen" with
    | Some word_info => prune word_info
    | None => Raise KeyError
    end.
Proof.
  apply (irregular_skips_inference not_found "lezen"). by vm_compute.
Defined.

Lemma final_forms_keys_werken :
  ∃ r, process_word verb_session "werken" = Ok r
    ∧ (∀ key, is_Some (forms r !! key) → key ∈ slots)
    ∧ Py.get (forms r) "present_tense" = None.
Proof.
  destruct (process_word verb_session "werken") as [r|e] eqn:E;
    [|by vm_compute in E].
  exists r. split; [done|].
  exact (final_forms_keys verb_session "werken" r E).
Defined.

Lemma lookup_forms_kept_lezen :
  ∃ r, process_word not_found "lezen" = Ok r
    ∧ ∃ d, _get_wiktionary_info not_found (Py.lower (Py.strip "lezen"))
           = Some d
         ∧ ∀ key v,
             wk_forms d !! key = Some (Some v) → v ≠ "" →
             forms r !! key = Some (Some v) ∨ forms r !! key = Some None.
Proof.
  destruct (process_word not_found "lezen") as [r|e] eqn:E;
    [|by vm_compute in E].
  exists r. split; [done|].
  exact (lookup_forms_kept not_found "lezen" r E).
Defined.

Lemma lookup_fails_offline : _get_wiktionary_info offline "lezen" = None.
Proof.
  apply (lookup_fails_with_definitions offline "lezen"). reflexivity.
Defined.

Lemma lookup_some_has_data_werken :
  ∃ d, _get_wiktionary_info verb_session "werken" = Some d
     ∧ (wk_meanings d ≠ []
        ∨ ∃ key v, wk_forms d !! key = Some (Some v) ∧ v ≠ "").
Proof.
  destruct (_get_wiktionary_info verb_session "werken") as [d|] eqn:E;
    [|by vm_compute in E].
  exists d. split; [done|].
  exact (lookup_some_has_data verb_session "werken" d E).
Defined.

Lemma first_part_of_speech_werken :
  ∃ d, _get_wiktionary_info verb_session "werken" = Some d
     ∧ wk_word_type d = Some "Verb".
Proof.
  destruct (_get_wiktionary_info verb_session "werken") as [d|] eqn:E;
    [|by vm_compute in E].
  exists d. split; [done|].
  apply (first_part_of_speech verb_session "werken" []
           {| partOfSpeech := Some "Verb";
              definitions := Some [ {| definition := Some "to work" |} ] |}
           [] "Verb" d); [reflexivity|constructor|reflexivity|done|done].
Defined.

Lemma main_no_words_missing :
  main ["dutch_word_analyzer.py"; "words.txt"; "output.json"] (λ _, None)
    (λ _, offline)
  = NoWords.
Proof.
  apply (main_no_words "dutch_word_analyzer.py" "words.txt" ["output.json"]).
  by left.
Defined.

Lemma main_saves_werken :
  ∃ out results,
    main ["dutch_word_analyzer.py"; "words.txt"; "output.json"]
      (λ _, Some [line "werken"]) (λ _, verb_session)
    = Displayed out (Some ("output.json", results))
    ∧ results ≠ []
    ∧ process_words_from_file (λ _, verb_session) (Some [line "werken"])
      = Ok results.
Proof.
  destruct (main ["dutch_word_analyzer.py"; "words.txt"; "output.json"]
              (λ _, Some [line "werken"]) (λ _, verb_session))
    as [| |out [[output_file results]|]|] eqn:E;
    try (by vm_compute in E).
  assert (output_file = "output.json") as ->
    by (vm_compute in E; by injection E as _ <- _).
  exists out, results. split; [done|].
  destruct (main_saves _ _ _ _ _ _ E)
    as (prog & words_file & rest & Ha & _ & Hr & Hp & _).
  injection Ha as <- <- <-. split; [exact Hr|exact Hp].
Defined.


End Instances.
